(** * TurboModuleManager: the lazy module resolver and its cache

    A shallow embedding of
    [ReactAndroid/src/main/java/com/facebook/react/turbomodule/core/jni/ReactCommon/TurboModuleManager.cpp]:
    the constructor (retention policy), [installJSIBindings] and the
    [turboModuleProvider] closure it installs.

    Conventions.
    - A [std::shared_ptr<T>], a [jni::alias_ref<T>] and the result of
      [weak_ptr::lock] are [option T]; [None] is the null pointer.
    - Objects compared by reference carry an address.  Objects made by
      the resolver itself ([std::make_shared]) take their address from an
      allocation counter kept in the state.
    - The delegate and the Java manager are collaborators outside this
      file.  Their methods are arbitrary functions that thread an opaque
      [World]; each call is also recorded in the trace, next to the
      markers of [TurboModulePerfLogger]. *)

From stdpp Require Import gmap strings list.

(** ** Handles of the collaborators *)

Definition jobject := nat.
Definition CallInvoker := nat.
Definition CxxModule := nat.
Definition JTurboModule := nat.
Definition jsi_Function := nat.
Definition jsi_Runtime := nat.
Definition shared_ptr (A : Type) := option A.

(** [legacyCxxModule->cthis()->getModule()] *)
Record CxxModuleWrapper := { wrapper_ref : jobject; getModule : CxxModule }.

(** [CallInvokerHolder::getCallInvoker] and [JRuntimeExecutor::get]: the
    Java holders [initHybrid] reads the C++ objects from. *)
Record CallInvokerHolder := { getCallInvoker : shared_ptr CallInvoker }.
Record JRuntimeExecutor := { JRuntimeExecutor_get : jsi_Runtime }.

(** ** Retention of JS callbacks *)

(** A [LongLivedObjectCollection] is named by where it lives: the
    process-wide singleton, or an object made by [std::make_shared]. *)
Inductive CollectionRef :=
| GlobalCollectionRef
| OwnedCollectionRef (addr : nat).

Record CallbackWrapper := {
  cw_addr : nat;
  cw_callback : jsi_Function;
  cw_runtime : jsi_Runtime;
  cw_jsInvoker : shared_ptr CallInvoker
}.

(** The two lambdas the constructor may store in [retainJSCallback_].
    The second one captures the manager's collection by value. *)
Inductive RetainJSCallback :=
| retainGlobal
| retainScoped (longLivedObjectCollection : shared_ptr nat).

(** The store of collections: the singleton and the owned ones. *)
Record Collections := {
  globalCollection : list CallbackWrapper;
  ownedCollections : gmap nat (list CallbackWrapper);
  nextWrapper : nat;
  nextCollection : nat
}.

(** [std::make_shared<LongLivedObjectCollection>()]: a new, empty
    collection at an address not used before. *)
Definition make_LongLivedObjectCollection (cs : Collections)
    : nat * Collections :=
  (nextCollection cs,
   {| globalCollection := globalCollection cs;
      ownedCollections := <[nextCollection cs := []]> (ownedCollections cs);
      nextWrapper := nextWrapper cs;
      nextCollection := S (nextCollection cs) |}).

(** Modelled from the spec: [CallbackWrapper::createWeak] is declared in
    ReactCommon and is not part of this file.  Section 4.4 says that a
    callback retained under GlobalCollection "is registered in a
    process-wide, weakly-referenced collection" and that under
    ManagerScopedCollection the callbacks are retained through the
    manager's own collection instance.  A new wrapper is made and added
    to the collection it is given. *)
Definition createWeak (target : CollectionRef) (callback : jsi_Function)
    (runtime : jsi_Runtime) (jsInvoker : shared_ptr CallInvoker)
    (cs : Collections) : CallbackWrapper * Collections :=
  let wrapper := {| cw_addr := nextWrapper cs; cw_callback := callback;
                    cw_runtime := runtime; cw_jsInvoker := jsInvoker |} in
  match target with
  | GlobalCollectionRef =>
      (wrapper,
       {| globalCollection := globalCollection cs ++ [wrapper];
          ownedCollections := ownedCollections cs;
          nextWrapper := S (nextWrapper cs);
          nextCollection := nextCollection cs |})
  | OwnedCollectionRef a =>
      (wrapper,
       {| globalCollection := globalCollection cs;
          ownedCollections :=
            <[a := default [] (ownedCollections cs !! a) ++ [wrapper]]>
              (ownedCollections cs);
          nextWrapper := S (nextWrapper cs);
          nextCollection := nextCollection cs |})
  end.

(** Calling the stored [std::function].  The scoped lambda passes the
    collection it captured as the first argument of [createWeak]; the
    constructor only ever builds it around a non-null collection, and a
    null one would be dereferenced by [createWeak], which has no result
    here. *)
Definition call_retainJSCallback (f : RetainJSCallback)
    (callback : jsi_Function) (runtime : jsi_Runtime)
    (jsInvoker : shared_ptr CallInvoker) (cs : Collections)
    : option (CallbackWrapper * Collections) :=
  match f with
  | retainGlobal =>
      Some (createWeak GlobalCollectionRef callback runtime jsInvoker cs)
  | retainScoped (Some a) =>
      Some (createWeak (OwnedCollectionRef a) callback runtime jsInvoker cs)
  | retainScoped None => None
  end.

(** ** Modules *)

(** A [TurboModule] is either an object handed out by the delegate or
    the [TurboCxxModule] adapter the resolver builds around a legacy
    module. *)
Inductive TurboModule :=
| DelegateModule (handle : nat)
| TurboCxxModule (addr : nat) (module : CxxModule) (jsInvoker : CallInvoker).

(** Reference equality of modules is decidable. *)
#[global] Instance TurboModule_eq_dec : EqDecision TurboModule.
Proof. unfold CxxModule, CallInvoker. solve_decision. Defined.

(** [JavaTurboModule::InitParams] *)
Record InitParams := {
  moduleName : string;
  instance : JTurboModule;
  jsInvoker : CallInvoker;
  nativeInvoker : CallInvoker;
  retainJSCallback : option RetainJSCallback
}.

(** [TurboModulePerfLogger] markers used by the resolver. *)
Inductive PerfMarker :=
| moduleJSRequireBeginningStart
| moduleJSRequireBeginningCacheHit
| moduleJSRequireBeginningEnd
| moduleJSRequireEndingStart
| moduleJSRequireEndingEnd.

(** Calls that leave the resolver, with the object they are made on. *)
Inductive ProviderCall :=
| Call_getTurboModule (receiver : jobject) (name : string)
    (jsCallInvoker : CallInvoker)
| Call_getLegacyCxxModule (receiver : jobject) (name : string)
| Call_getJavaModule (receiver : jobject) (name : string)
| Call_getTurboModule_params (receiver : jobject) (name : string)
    (params : InitParams).

Inductive Event :=
| Perf (marker : PerfMarker) (moduleName : string)
| Call (call : ProviderCall).

Definition is_call (e : Event) : bool :=
  match e with Call _ => true | Perf _ _ => false end.

Definition is_perf (e : Event) : bool :=
  match e with Perf _ _ => true | Call _ => false end.

Definition provider_calls (tr : list Event) : list Event := filter is_call tr.
Definition perf_events (tr : list Event) : list Event := filter is_perf tr.

(** [TurboModuleCache] is a [std::unordered_map] from the name to the
    shared pointer; the stored pointer itself may be null. *)
Abbreviation TurboModuleCache := (gmap string (shared_ptr TurboModule)).

(** [unordered_map::insert]: nothing happens when the key is present. *)
Definition cache_insert (name : string) (m : shared_ptr TurboModule)
    (cache : TurboModuleCache) : TurboModuleCache :=
  match cache !! name with
  | Some _ => cache
  | None => <[name := m]> cache
  end.

Section Resolver.
Context {World : Type}.

(** [TurboModuleManagerDelegate]: the two overloads of [getTurboModule]. *)
Record TurboModuleManagerDelegate := {
  delegate_ref : jobject;
  getTurboModule :
    string → CallInvoker → World → shared_ptr TurboModule * World;
  getTurboModule_params :
    string → InitParams → World → shared_ptr TurboModule * World
}.

(** The Java [TurboModuleManager], reached through [javaPart_]. *)
Record JavaPart := {
  javaPart_ref : jobject;
  getLegacyCxxModule : string → World → option CxxModuleWrapper * World;
  getJavaModule : string → World → option JTurboModule * World
}.

(** What the five weak references captured by the closure point to;
    [None] once the object is gone.  The cache is the one mutable
    object among them. *)
Record State := {
  turboModuleCache_ : option TurboModuleCache;
  jsCallInvoker_ : option CallInvoker;
  nativeCallInvoker_ : option CallInvoker;
  delegate_ : option TurboModuleManagerDelegate;
  javaPart_ : option JavaPart;
  world : World;
  trace : list Event;
  heapNext : nat
}.

(** *** A state monad for the body of the closure *)

Definition M (A : Type) := State → A * State.

Definition ret {A} (a : A) : M A := fun s => (a, s).

Definition bind {A B} (c : M A) (k : A → M B) : M B :=
  fun s => let (a, s') := c s in k a s'.

Notation "'let*' x := c 'in' k" := (bind c (fun x => k))
  (at level 10, x name, c at level 100, k at level 200).
Notation "c ';;' k" := (bind c (fun _ => k))
  (at level 100, k at level 200, right associativity).

(** Field updates of the state. *)
Definition add_trace (es : list Event) (s : State) : State :=
  {| turboModuleCache_ := turboModuleCache_ s;
     jsCallInvoker_ := jsCallInvoker_ s;
     nativeCallInvoker_ := nativeCallInvoker_ s;
     delegate_ := delegate_ s;
     javaPart_ := javaPart_ s;
     world := world s;
     trace := trace s ++ es;
     heapNext := heapNext s |}.

Definition set_world (w : World) (s : State) : State :=
  {| turboModuleCache_ := turboModuleCache_ s;
     jsCallInvoker_ := jsCallInvoker_ s;
     nativeCallInvoker_ := nativeCallInvoker_ s;
     delegate_ := delegate_ s;
     javaPart_ := javaPart_ s;
     world := w;
     trace := trace s;
     heapNext := heapNext s |}.

Definition set_cache (c : option TurboModuleCache) (s : State) : State :=
  {| turboModuleCache_ := c;
     jsCallInvoker_ := jsCallInvoker_ s;
     nativeCallInvoker_ := nativeCallInvoker_ s;
     delegate_ := delegate_ s;
     javaPart_ := javaPart_ s;
     world := world s;
     trace := trace s;
     heapNext := heapNext s |}.

Definition set_heapNext (n : nat) (s : State) : State :=
  {| turboModuleCache_ := turboModuleCache_ s;
     jsCallInvoker_ := jsCallInvoker_ s;
     nativeCallInvoker_ := nativeCallInvoker_ s;
     delegate_ := delegate_ s;
     javaPart_ := javaPart_ s;
     world := world s;
     trace := trace s;
     heapNext := n |}.

Definition emit (e : Event) : M unit := fun s => (tt, add_trace [e] s).

Definition with_world {A} (f : World → A * World) : M A := fun s =>
  let (a, w) := f (world s) in (a, set_world w s).

(** [turboModuleCache->insert({name, m})] on the locked cache. *)
Definition insert_cache (name : string) (m : shared_ptr TurboModule)
    : M unit := fun s =>
  (tt, set_cache (cache_insert name m <$> turboModuleCache_ s) s).

(** [std::make_shared<react::TurboCxxModule>(module, jsCallInvoker)] *)
Definition make_TurboCxxModule (module : CxxModule)
    (jsCallInvoker : CallInvoker) : M TurboModule := fun s =>
  (TurboCxxModule (heapNext s) module jsCallInvoker,
   set_heapNext (S (heapNext s)) s).

Definition perf (marker : PerfMarker) (name : string) : M unit :=
  emit (Perf marker name).

(** *** The calls out of the resolver *)

Definition call_getTurboModule (delegate : TurboModuleManagerDelegate)
    (name : string) (jsCallInvoker : CallInvoker)
    : M (shared_ptr TurboModule) :=
  emit (Call (Call_getTurboModule (delegate_ref delegate) name jsCallInvoker)) ;;
  with_world (getTurboModule delegate name jsCallInvoker).

Definition call_getLegacyCxxModule (javaPart : JavaPart) (name : string)
    : M (option CxxModuleWrapper) :=
  emit (Call (Call_getLegacyCxxModule (javaPart_ref javaPart) name)) ;;
  with_world (getLegacyCxxModule javaPart name).

Definition call_getJavaModule (javaPart : JavaPart) (name : string)
    : M (option JTurboModule) :=
  emit (Call (Call_getJavaModule (javaPart_ref javaPart) name)) ;;
  with_world (getJavaModule javaPart name).

Definition call_getTurboModule_params (delegate : TurboModuleManagerDelegate)
    (name : string) (params : InitParams) : M (shared_ptr TurboModule) :=
  emit (Call (Call_getTurboModule_params (delegate_ref delegate) name params)) ;;
  with_world (getTurboModule_params delegate name params).

(** *** The body of the closure, after the five locks succeeded *)

(** Third tier: the managed module from [getJavaModule]. *)
Definition resolveJavaModule (retainJSCallback : option RetainJSCallback)
    (jsCallInvoker nativeCallInvoker : CallInvoker)
    (delegate : TurboModuleManagerDelegate) (javaPart : JavaPart)
    (name : string) : M (shared_ptr TurboModule) :=
  let* moduleInstance := call_getJavaModule javaPart name in
  match moduleInstance with
  | Some moduleInstance =>
      perf moduleJSRequireEndingStart name ;;
      let params := {| moduleName := name;
                       instance := moduleInstance;
                       jsInvoker := jsCallInvoker;
                       nativeInvoker := nativeCallInvoker;
                       retainJSCallback := retainJSCallback |} in
      let* turboModule := call_getTurboModule_params delegate name params in
      insert_cache name turboModule ;;
      perf moduleJSRequireEndingEnd name ;;
      ret turboModule
  | None => ret None
  end.

(** Second tier: the legacy module from [getLegacyCxxModule]. *)
Definition resolveLegacyCxxModule (retainJSCallback : option RetainJSCallback)
    (jsCallInvoker nativeCallInvoker : CallInvoker)
    (delegate : TurboModuleManagerDelegate) (javaPart : JavaPart)
    (name : string) : M (shared_ptr TurboModule) :=
  let* legacyCxxModule := call_getLegacyCxxModule javaPart name in
  match legacyCxxModule with
  | Some legacyCxxModule =>
      perf moduleJSRequireEndingStart name ;;
      let* turboModule :=
        make_TurboCxxModule (getModule legacyCxxModule) jsCallInvoker in
      insert_cache name (Some turboModule) ;;
      perf moduleJSRequireEndingEnd name ;;
      ret (Some turboModule)
  | None =>
      resolveJavaModule retainJSCallback jsCallInvoker nativeCallInvoker
        delegate javaPart name
  end.

(** First tier: the delegate's C++ module. *)
Definition resolveCxxModule (retainJSCallback : option RetainJSCallback)
    (jsCallInvoker nativeCallInvoker : CallInvoker)
    (delegate : TurboModuleManagerDelegate) (javaPart : JavaPart)
    (name : string) : M (shared_ptr TurboModule) :=
  let* cxxModule := call_getTurboModule delegate name jsCallInvoker in
  match cxxModule with
  | Some _ =>
      insert_cache name cxxModule ;;
      ret cxxModule
  | None =>
      resolveLegacyCxxModule retainJSCallback jsCallInvoker
        nativeCallInvoker delegate javaPart name
  end.

Definition resolve (retainJSCallback : option RetainJSCallback)
    (turboModuleCache : TurboModuleCache)
    (jsCallInvoker nativeCallInvoker : CallInvoker)
    (delegate : TurboModuleManagerDelegate) (javaPart : JavaPart)
    (name : string) : M (shared_ptr TurboModule) :=
  perf moduleJSRequireBeginningStart name ;;
  match turboModuleCache !! name with
  | Some turboModuleLookup =>
      perf moduleJSRequireBeginningCacheHit name ;;
      perf moduleJSRequireBeginningEnd name ;;
      ret turboModuleLookup
  | None =>
      perf moduleJSRequireBeginningEnd name ;;
      resolveCxxModule retainJSCallback jsCallInvoker nativeCallInvoker
        delegate javaPart name
  end.

(** *** The closure: lock the five weak references, then resolve *)

Definition turboModuleProvider (retainJSCallback : option RetainJSCallback)
    (name : string) : M (shared_ptr TurboModule) := fun s =>
  match turboModuleCache_ s, jsCallInvoker_ s, nativeCallInvoker_ s,
        delegate_ s, javaPart_ s with
  | Some turboModuleCache, Some jsCallInvoker, Some nativeCallInvoker,
    Some delegate, Some javaPart =>
      resolve retainJSCallback turboModuleCache jsCallInvoker
        nativeCallInvoker delegate javaPart name s
  | _, _, _, _, _ => (None, s)
  end.

(** *** Vocabulary for the properties *)

Implicit Types (s : State) (d : TurboModuleManagerDelegate)
  (j : JavaPart) (c : TurboModuleCache) (n name : string)
  (r : option RetainJSCallback) (m : TurboModule)
  (v : shared_ptr TurboModule).

(** All five weak references lock. *)
Definition locked s c (js nv : CallInvoker) d j : Prop :=
  turboModuleCache_ s = Some c ∧ jsCallInvoker_ s = Some js ∧
  nativeCallInvoker_ s = Some nv ∧ delegate_ s = Some d ∧
  javaPart_ s = Some j.

(** The cache entry of a name, when the cache is still there. *)
Definition entry s n : option (shared_ptr TurboModule) :=
  turboModuleCache_ s ≫= (.!! n).

(** No tier has a module for [n]: whatever the state of the world, the
    delegate's native lookup, [getLegacyCxxModule] and [getJavaModule]
    all come back empty. *)
Definition no_provider n s : Prop :=
  (∀ d, delegate_ s = Some d →
        ∀ js w, fst (getTurboModule d n js w) = None) ∧
  (∀ j, javaPart_ s = Some j →
        ∀ w, fst (getLegacyCxxModule j n w) = None ∧
             fst (getJavaModule j n w) = None).

(** The events a lookup adds to the trace. *)
Definition events r n s : list Event :=
  drop (length (trace s)) (trace (snd (turboModuleProvider r n s))).

(** Two readings of the specification that the properties below are
    compared with.  The first says that the legacy module is asked of the
    delegate: every [getLegacyCxxModule] of the lookup is called on the
    delegate's object.  The second says that a marker is recorded once
    the delegate's native lookup has been made. *)
Definition legacy_queried_via_delegate r n s : Prop :=
  ∀ d, delegate_ s = Some d →
  ∀ receiver k, Call (Call_getLegacyCxxModule receiver k) ∈ events r n s →
    receiver = delegate_ref d.

Definition marker_after_native_call r n s : Prop :=
  ∃ before receiver js marker rest,
    events r n s = before ++ Call (Call_getTurboModule receiver n js) :: rest ∧
    Perf marker n ∈ rest.

(** The state [s] once a lookup has replaced the cache contents, moved
    the world, appended events and allocated. *)
Definition after s c (w : World) (es : list Event) (h : nat) : State :=
  {| turboModuleCache_ := Some c;
     jsCallInvoker_ := jsCallInvoker_ s;
     nativeCallInvoker_ := nativeCallInvoker_ s;
     delegate_ := delegate_ s;
     javaPart_ := javaPart_ s;
     world := w;
     trace := trace s ++ es;
     heapNext := h |}.

(** Every lookup goes one of these ways (see [provider_outcome]). *)

Inductive outcome r n s : shared_ptr TurboModule → State → Prop :=
| outcome_gone :
    turboModuleCache_ s = None ∨ jsCallInvoker_ s = None ∨
    nativeCallInvoker_ s = None ∨ delegate_ s = None ∨
    javaPart_ s = None →
    outcome r n s None s
| outcome_hit c js nv d j v :
    locked s c js nv d j → c !! n = Some v →
    outcome r n s v
      (after s c (world s)
         [Perf moduleJSRequireBeginningStart n;
          Perf moduleJSRequireBeginningCacheHit n;
          Perf moduleJSRequireBeginningEnd n] (heapNext s))
| outcome_cxx c js nv d j m w1 :
    locked s c js nv d j → c !! n = None →
    getTurboModule d n js (world s) = (Some m, w1) →
    outcome r n s (Some m)
      (after s (<[n := Some m]> c) w1
         [Perf moduleJSRequireBeginningStart n;
          Perf moduleJSRequireBeginningEnd n;
          Call (Call_getTurboModule (delegate_ref d) n js)] (heapNext s))
| outcome_legacy c js nv d j w1 l w2 :
    locked s c js nv d j → c !! n = None →
    getTurboModule d n js (world s) = (None, w1) →
    getLegacyCxxModule j n w1 = (Some l, w2) →
    outcome r n s (Some (TurboCxxModule (heapNext s) (getModule l) js))
      (after s
         (<[n := Some (TurboCxxModule (heapNext s) (getModule l) js)]> c)
         w2
         [Perf moduleJSRequireBeginningStart n;
          Perf moduleJSRequireBeginningEnd n;
          Call (Call_getTurboModule (delegate_ref d) n js);
          Call (Call_getLegacyCxxModule (javaPart_ref j) n);
          Perf moduleJSRequireEndingStart n;
          Perf moduleJSRequireEndingEnd n] (S (heapNext s)))
| outcome_java c js nv d j w1 w2 inst w3 v w4 :
    locked s c js nv d j → c !! n = None →
    getTurboModule d n js (world s) = (None, w1) →
    getLegacyCxxModule j n w1 = (None, w2) →
    getJavaModule j n w2 = (Some inst, w3) →
    getTurboModule_params d n
      {| moduleName := n; instance := inst; jsInvoker := js;
         nativeInvoker := nv; retainJSCallback := r |} w3 = (v, w4) →
    outcome r n s v
      (after s (<[n := v]> c) w4
         [Perf moduleJSRequireBeginningStart n;
          Perf moduleJSRequireBeginningEnd n;
          Call (Call_getTurboModule (delegate_ref d) n js);
          Call (Call_getLegacyCxxModule (javaPart_ref j) n);
          Call (Call_getJavaModule (javaPart_ref j) n);
          Perf moduleJSRequireEndingStart n;
          Call (Call_getTurboModule_params (delegate_ref d) n
                  {| moduleName := n; instance := inst; jsInvoker := js;
                     nativeInvoker := nv; retainJSCallback := r |});
          Perf moduleJSRequireEndingEnd n] (heapNext s))
| outcome_all_empty c js nv d j w1 w2 w3 :
    locked s c js nv d j → c !! n = None →
    getTurboModule d n js (world s) = (None, w1) →
    getLegacyCxxModule j n w1 = (None, w2) →
    getJavaModule j n w2 = (None, w3) →
    outcome r n s None
      (after s c w3
         [Perf moduleJSRequireBeginningStart n;
          Perf moduleJSRequireBeginningEnd n;
          Call (Call_getTurboModule (delegate_ref d) n js);
          Call (Call_getLegacyCxxModule (javaPart_ref j) n);
          Call (Call_getJavaModule (javaPart_ref j) n)] (heapNext s)).

(** *** What can happen to an installed closure *)

(** The closure is called by the runtime; between two calls any of the
    five captured objects may be destroyed by its owner, and the
    collaborators may change state of their own. *)
Inductive Dependency :=
| TheTurboModuleCache
| TheJsCallInvoker
| TheNativeCallInvoker
| TheDelegate
| TheJavaPart.

Definition destroy (d : Dependency) (s : State) : State :=
  {| turboModuleCache_ :=
       match d with TheTurboModuleCache => None | _ => turboModuleCache_ s end;
     jsCallInvoker_ :=
       match d with TheJsCallInvoker => None | _ => jsCallInvoker_ s end;
     nativeCallInvoker_ :=
       match d with TheNativeCallInvoker => None | _ => nativeCallInvoker_ s end;
     delegate_ := match d with TheDelegate => None | _ => delegate_ s end;
     javaPart_ := match d with TheJavaPart => None | _ => javaPart_ s end;
     world := world s;
     trace := trace s;
     heapNext := heapNext s |}.

Inductive Action :=
| Lookup (name : string)
| Destroy (d : Dependency)
| Outside (f : World → World).

Definition step (retainJSCallback : option RetainJSCallback)
    (a : Action) (s : State) : State :=
  match a with
  | Lookup name => snd (turboModuleProvider retainJSCallback name s)
  | Destroy d => destroy d s
  | Outside f => set_world (f (world s)) s
  end.

Definition run (retainJSCallback : option RetainJSCallback)
    (acts : list Action) (s : State) : State :=
  foldl (fun s a => step retainJSCallback a s) s acts.

(** The results of the lookups of a run, in order. *)
Fixpoint results (retainJSCallback : option RetainJSCallback)
    (acts : list Action) (s : State)
    : list (string * shared_ptr TurboModule) :=
  match acts with
  | [] => []
  | a :: acts =>
      match a with
      | Lookup name =>
          [(name, fst (turboModuleProvider retainJSCallback name s))]
      | _ => []
      end ++ results retainJSCallback acts (step retainJSCallback a s)
  end.

(** The number of steps of a run that put a new value under [name]. *)
Fixpoint writes (retainJSCallback : option RetainJSCallback)
    (name : string) (acts : list Action) (s : State) : nat :=
  match acts with
  | [] => 0
  | a :: acts =>
      let s' := step retainJSCallback a s in
      match entry s' name with
      | Some v => if bool_decide (entry s name = Some v) then 0 else 1
      | None => 0
      end + writes retainJSCallback name acts s'
  end.

(** ** The manager *)

(** The members of the C++ object.  The cache member is the map the
    constructor makes; the closure reaches the same object through
    [turboModuleCache_] of the state.  The runtime executor is stood for
    by the runtime it hands to the work it is given. *)
Record TurboModuleManager := {
  this_javaPart_ : JavaPart;
  this_runtimeExecutor_ : jsi_Runtime;
  this_jsCallInvoker_ : shared_ptr CallInvoker;
  this_nativeCallInvoker_ : shared_ptr CallInvoker;
  this_delegate_ : TurboModuleManagerDelegate;
  this_turboModuleCache_ : TurboModuleCache;
  this_longLivedObjectCollection_ : shared_ptr nat;
  this_retainJSCallback_ : option RetainJSCallback
}.

(** [TurboModuleManager::TurboModuleManager].  The two members set in
    the body are default-constructed first: a null [shared_ptr] and an
    empty [std::function]. *)
Definition TurboModuleManager_new (jThis : JavaPart)
    (runtimeExecutor : jsi_Runtime)
    (jsCallInvoker nativeCallInvoker : shared_ptr CallInvoker)
    (delegate : TurboModuleManagerDelegate)
    (useGlobalCallbackCleanupScopeUsingRetainJSCallback : bool)
    (useTurboModuleManagerCallbackCleanupScope : bool)
    (cs : Collections) : TurboModuleManager * Collections :=
  let init longLivedObjectCollection retainJSCallback :=
    {| this_javaPart_ := jThis;
       this_runtimeExecutor_ := runtimeExecutor;
       this_jsCallInvoker_ := jsCallInvoker;
       this_nativeCallInvoker_ := nativeCallInvoker;
       this_delegate_ := delegate;
       this_turboModuleCache_ := ∅;
       this_longLivedObjectCollection_ := longLivedObjectCollection;
       this_retainJSCallback_ := retainJSCallback |} in
  if useGlobalCallbackCleanupScopeUsingRetainJSCallback then
    (init None (Some retainGlobal), cs)
  else if useTurboModuleManagerCallbackCleanupScope then
    let (longLivedObjectCollection, cs') :=
      make_LongLivedObjectCollection cs in
    (init (Some longLivedObjectCollection)
          (Some (retainScoped (Some longLivedObjectCollection))), cs')
  else
    (init None None, cs).

(** What [TurboModuleBinding::install] receives: the runtime, the
    provider closure (here: the [retainJSCallback] it captured by value)
    and the manager's collection. *)
Record TurboModuleBinding := {
  binding_runtime : jsi_Runtime;
  binding_retainJSCallback : option RetainJSCallback;
  binding_longLivedObjectCollection : shared_ptr nat
}.

(** [TurboModuleManager::installJSIBindings]: nothing is installed
    without a JS call invoker; no member is assigned. *)
Definition installJSIBindings (this : TurboModuleManager)
    : TurboModuleManager * option TurboModuleBinding :=
  match this_jsCallInvoker_ this with
  | None => (this, None)
  | Some _ =>
      (this,
       Some {| binding_runtime := this_runtimeExecutor_ this;
               binding_retainJSCallback := this_retainJSCallback_ this;
               binding_longLivedObjectCollection :=
                 this_longLivedObjectCollection_ this |})
  end.

(** The targets of the weak references the closure captures from the
    manager, all still alive. *)
Definition captured (this : TurboModuleManager) (w : World)
    (heap : nat) : State :=
  {| turboModuleCache_ := Some (this_turboModuleCache_ this);
     jsCallInvoker_ := this_jsCallInvoker_ this;
     nativeCallInvoker_ := this_nativeCallInvoker_ this;
     delegate_ := Some (this_delegate_ this);
     javaPart_ := Some (this_javaPart_ this);
     world := w;
     trace := [];
     heapNext := heap |}.

(** The retention strategy of section 3, read off the members. *)
Inductive RetentionStrategy :=
| GlobalCollection
| ManagerScopedCollection
| NoRetention.

Definition retentionStrategy (this : TurboModuleManager)
    : RetentionStrategy :=
  match this_retainJSCallback_ this with
  | Some retainGlobal => GlobalCollection
  | Some (retainScoped _) => ManagerScopedCollection
  | None => NoRetention
  end.

(** [TurboModuleManager::initHybrid]: the invokers are taken out of their
    Java holders, the executor out of its holder, and the C++ object is
    made from them with the two flags in the order they came in. *)
Definition initHybrid (jThis : JavaPart) (runtimeExecutor : JRuntimeExecutor)
    (jsCallInvokerHolder nativeCallInvokerHolder : CallInvokerHolder)
    (delegate : TurboModuleManagerDelegate)
    (useGlobalCallbackCleanupScopeUsingRetainJSCallback : bool)
    (useTurboModuleManagerCallbackCleanupScope : bool)
    (cs : Collections) : TurboModuleManager * Collections :=
  let jsCallInvoker := getCallInvoker jsCallInvokerHolder in
  let nativeCallInvoker := getCallInvoker nativeCallInvokerHolder in
  TurboModuleManager_new jThis (JRuntimeExecutor_get runtimeExecutor)
    jsCallInvoker nativeCallInvoker delegate
    useGlobalCallbackCleanupScopeUsingRetainJSCallback
    useTurboModuleManagerCallbackCleanupScope cs.

(** The names a run asks for, in order. *)
Fixpoint looked_up (acts : list Action) : list string :=
  match acts with
  | [] => []
  | Lookup name :: acts => name :: looked_up acts
  | _ :: acts => looked_up acts
  end.

(** Some captured reference no longer locks. *)
Definition gone s : Prop :=
  turboModuleCache_ s = None ∨ jsCallInvoker_ s = None ∨
  nativeCallInvoker_ s = None ∨ delegate_ s = None ∨ javaPart_ s = None.

End Resolver.

(** ** A concrete configuration

    The world counts the calls made to the collaborators, and a module
    handed out by the delegate is numbered by the call that made it, so
    two calls never hand out the same object.  "Foo" is known to the
    first two tiers, "Legacy" to the second, "Bar" to the third, and
    "Empty" is a managed module for which the delegate builds nothing. *)

Definition demo_delegate : @TurboModuleManagerDelegate nat :=
  {| delegate_ref := 10;
     getTurboModule := fun name _ w =>
       (if String.eqb name "Foo" then Some (DelegateModule w) else None, S w);
     getTurboModule_params := fun name _ w =>
       (if String.eqb name "Empty" then None else Some (DelegateModule w),
        S w) |}.

Definition demo_javaPart : @JavaPart nat :=
  {| javaPart_ref := 20;
     getLegacyCxxModule := fun name w =>
       (if String.eqb name "Foo" || String.eqb name "Legacy"
        then Some {| wrapper_ref := 30; getModule := 31 |} else None, S w);
     getJavaModule := fun name w =>
       (if String.eqb name "Bar" || String.eqb name "Empty"
        then Some 40 else None, S w) |}.

Definition demo_collections : Collections :=
  {| globalCollection := []; ownedCollections := ∅;
     nextWrapper := 0; nextCollection := 0 |}.

Definition demo_manager (useGlobal useScoped : bool)
    : @TurboModuleManager nat :=
  fst (TurboModuleManager_new demo_javaPart 1 (Some 2) (Some 3)
         demo_delegate useGlobal useScoped demo_collections).

Definition demo_state : @State nat := captured (demo_manager false true) 0 0.

(** A manager made through [initHybrid], with both invokers present and
    only the manager-scoped flag set, and the state its closure starts
    from. *)
Definition demo_hybrid : @TurboModuleManager nat :=
  fst (initHybrid demo_javaPart {| JRuntimeExecutor_get := 1 |}
         {| getCallInvoker := Some 2 |} {| getCallInvoker := Some 3 |}
         demo_delegate false true demo_collections).

(** The state after the managed tier cached a null module for "Empty". *)
Definition demo_after_Empty : @State nat :=
  snd (turboModuleProvider None "Empty" demo_state).

(** The state after a first lookup of "Foo". *)
Definition demo_after_Foo : @State nat :=
  snd (turboModuleProvider None "Foo" demo_state).

(** The delegate is destroyed while the manager is still there. *)
Definition demo_torn_down : @State nat := destroy TheDelegate demo_state.

(** * Properties of the resolver *)

Ltac step_resolver :=
  unfold resolve, resolveCxxModule, resolveLegacyCxxModule,
    resolveJavaModule, call_getTurboModule, call_getLegacyCxxModule,
    call_getJavaModule, call_getTurboModule_params, perf, emit,
    with_world, insert_cache, make_TurboCxxModule, bind, ret,
    add_trace, set_world, set_cache, set_heapNext, after; simpl.

Ltac finish_resolver :=
  rewrite <- ?app_assoc; simpl; reflexivity.

Section ResolverFacts.
Context {World : Type}.
Implicit Types (s : @State World) (d : @TurboModuleManagerDelegate World)
  (j : @JavaPart World) (c : TurboModuleCache) (n name : string)
  (r : option RetainJSCallback) (m : TurboModule)
  (v : shared_ptr TurboModule).

Lemma provider_locked r n s c js nv d j :
  locked s c js nv d j →
  turboModuleProvider r n s = resolve r c js nv d j n s.
Proof.
  intros (Hc & Hjs & Hnv & Hd & Hj). unfold turboModuleProvider.
  by rewrite Hc, Hjs, Hnv, Hd, Hj.
Qed.

Lemma provider_not_locked r n s :
  turboModuleCache_ s = None ∨ jsCallInvoker_ s = None ∨
  nativeCallInvoker_ s = None ∨ delegate_ s = None ∨ javaPart_ s = None →
  turboModuleProvider r n s = (None, s).
Proof.
  unfold turboModuleProvider.
  destruct (turboModuleCache_ s), (jsCallInvoker_ s),
    (nativeCallInvoker_ s), (delegate_ s), (javaPart_ s);
    intros [?|[?|[?|[?|?]]]]; congruence.
Qed.

(** Either all five lock or the lookup is a no-op. *)
Lemma locked_or_not s :
  (∃ c js nv d j, locked s c js nv d j) ∨
  (turboModuleCache_ s = None ∨ jsCallInvoker_ s = None ∨
   nativeCallInvoker_ s = None ∨ delegate_ s = None ∨ javaPart_ s = None).
Proof.
  unfold locked.
  destruct (turboModuleCache_ s), (jsCallInvoker_ s),
    (nativeCallInvoker_ s), (delegate_ s), (javaPart_ s);
    try (right; tauto); left; eauto 10.
Qed.

(** *** The five ways through the closure

    Each lemma gives the result and the whole state after the lookup. *)

Lemma provider_cache_hit r n s c js nv d j v :
  locked s c js nv d j → c !! n = Some v →
  turboModuleProvider r n s =
    (v, after s c (world s)
          [Perf moduleJSRequireBeginningStart n;
           Perf moduleJSRequireBeginningCacheHit n;
           Perf moduleJSRequireBeginningEnd n] (heapNext s)).
Proof.
  intros Hl Hc. rewrite (provider_locked _ _ _ _ _ _ _ _ Hl).
  destruct Hl as (Hs & _).
  step_resolver. rewrite Hc. simpl. rewrite Hs. finish_resolver.
Qed.

Lemma provider_cxx r n s c js nv d j m w1 :
  locked s c js nv d j → c !! n = None →
  getTurboModule d n js (world s) = (Some m, w1) →
  turboModuleProvider r n s =
    (Some m, after s (<[n := Some m]> c) w1
          [Perf moduleJSRequireBeginningStart n;
           Perf moduleJSRequireBeginningEnd n;
           Call (Call_getTurboModule (delegate_ref d) n js)] (heapNext s)).
Proof.
  intros Hl Hc H1. rewrite (provider_locked _ _ _ _ _ _ _ _ Hl).
  destruct Hl as (Hs & _).
  step_resolver. rewrite Hc. simpl. rewrite H1. simpl.
  rewrite Hs. simpl. unfold cache_insert. rewrite Hc. finish_resolver.
Qed.

Lemma provider_legacy r n s c js nv d j w1 l w2 :
  locked s c js nv d j → c !! n = None →
  getTurboModule d n js (world s) = (None, w1) →
  getLegacyCxxModule j n w1 = (Some l, w2) →
  turboModuleProvider r n s =
    (Some (TurboCxxModule (heapNext s) (getModule l) js),
     after s (<[n := Some (TurboCxxModule (heapNext s) (getModule l) js)]> c)
       w2
       [Perf moduleJSRequireBeginningStart n;
        Perf moduleJSRequireBeginningEnd n;
        Call (Call_getTurboModule (delegate_ref d) n js);
        Call (Call_getLegacyCxxModule (javaPart_ref j) n);
        Perf moduleJSRequireEndingStart n;
        Perf moduleJSRequireEndingEnd n] (S (heapNext s))).
Proof.
  intros Hl Hc H1 H2. rewrite (provider_locked _ _ _ _ _ _ _ _ Hl).
  destruct Hl as (Hs & _).
  step_resolver. rewrite Hc. simpl. rewrite H1. simpl. rewrite H2. simpl.
  rewrite Hs. simpl. unfold cache_insert. rewrite Hc. finish_resolver.
Qed.

Lemma provider_java r n s c js nv d j w1 w2 inst w3 v w4 :
  locked s c js nv d j → c !! n = None →
  getTurboModule d n js (world s) = (None, w1) →
  getLegacyCxxModule j n w1 = (None, w2) →
  getJavaModule j n w2 = (Some inst, w3) →
  getTurboModule_params d n
    {| moduleName := n; instance := inst; jsInvoker := js;
       nativeInvoker := nv; retainJSCallback := r |} w3 = (v, w4) →
  turboModuleProvider r n s =
    (v, after s (<[n := v]> c) w4
       [Perf moduleJSRequireBeginningStart n;
        Perf moduleJSRequireBeginningEnd n;
        Call (Call_getTurboModule (delegate_ref d) n js);
        Call (Call_getLegacyCxxModule (javaPart_ref j) n);
        Call (Call_getJavaModule (javaPart_ref j) n);
        Perf moduleJSRequireEndingStart n;
        Call (Call_getTurboModule_params (delegate_ref d) n
                {| moduleName := n; instance := inst; jsInvoker := js;
                   nativeInvoker := nv; retainJSCallback := r |});
        Perf moduleJSRequireEndingEnd n] (heapNext s)).
Proof.
  intros Hl Hc H1 H2 H3 H4. rewrite (provider_locked _ _ _ _ _ _ _ _ Hl).
  destruct Hl as (Hs & _).
  step_resolver. rewrite Hc. simpl. rewrite H1. simpl. rewrite H2. simpl.
  rewrite H3. simpl. rewrite H4. simpl.
  rewrite Hs. simpl. unfold cache_insert. rewrite Hc. finish_resolver.
Qed.

Lemma provider_all_empty r n s c js nv d j w1 w2 w3 :
  locked s c js nv d j → c !! n = None →
  getTurboModule d n js (world s) = (None, w1) →
  getLegacyCxxModule j n w1 = (None, w2) →
  getJavaModule j n w2 = (None, w3) →
  turboModuleProvider r n s =
    (None, after s c w3
       [Perf moduleJSRequireBeginningStart n;
        Perf moduleJSRequireBeginningEnd n;
        Call (Call_getTurboModule (delegate_ref d) n js);
        Call (Call_getLegacyCxxModule (javaPart_ref j) n);
        Call (Call_getJavaModule (javaPart_ref j) n)] (heapNext s)).
Proof.
  intros Hl Hc H1 H2 H3. rewrite (provider_locked _ _ _ _ _ _ _ _ Hl).
  destruct Hl as (Hs & _).
  step_resolver. rewrite Hc. simpl. rewrite H1. simpl. rewrite H2. simpl.
  rewrite H3. simpl. rewrite Hs. finish_resolver.
Qed.

Lemma provider_outcome r n s :
  outcome r n s (fst (turboModuleProvider r n s))
                (snd (turboModuleProvider r n s)).
Proof.
  destruct (locked_or_not s) as [(c & js & nv & d & j & Hl) | Hgone].
  2: { rewrite provider_not_locked by done. by constructor. }
  destruct (c !! n) as [v|] eqn:Hc.
  { erewrite provider_cache_hit by done. by econstructor. }
  destruct (getTurboModule d n js (world s)) as [[m|] w1] eqn:H1.
  { erewrite provider_cxx by done. by econstructor. }
  destruct (getLegacyCxxModule j n w1) as [[l|] w2] eqn:H2.
  { erewrite provider_legacy by done. by econstructor. }
  destruct (getJavaModule j n w2) as [[inst|] w3] eqn:H3.
  - destruct (getTurboModule_params d n
      {| moduleName := n; instance := inst; jsInvoker := js;
         nativeInvoker := nv; retainJSCallback := r |} w3)
      as [v w4] eqn:H4.
    erewrite provider_java by done. by econstructor.
  - erewrite provider_all_empty by done. by econstructor.
Qed.

Lemma provider_outcome_eq r n s res s' :
  turboModuleProvider r n s = (res, s') → outcome r n s res s'.
Proof.
  intros H. pose proof (provider_outcome r n s) as Ho.
  by rewrite H in Ho.
Qed.

(** *** What a lookup leaves alone *)

(** The four captured references that are not the cache never change,
    and a lookup never destroys or revives the cache. *)
Lemma provider_frame r n s res s' :
  turboModuleProvider r n s = (res, s') →
  jsCallInvoker_ s' = jsCallInvoker_ s ∧
  nativeCallInvoker_ s' = nativeCallInvoker_ s ∧
  delegate_ s' = delegate_ s ∧ javaPart_ s' = javaPart_ s ∧
  (turboModuleCache_ s' = None ↔ turboModuleCache_ s = None).
Proof.
  intros H%provider_outcome_eq.
  inversion H as [ | ? ? ? ? ? ? [Hs _] | ? ? ? ? ? ? ? [Hs _]
                   | ? ? ? ? ? ? ? ? [Hs _] | ? ? ? ? ? ? ? ? ? ? ? [Hs _]
                   | ? ? ? ? ? ? ? ? [Hs _] ]; subst; simpl;
    rewrite ?Hs; naive_solver.
Qed.

(** The cache after a lookup: as before, or with one entry added under
    the looked-up name, which had none. *)
Lemma provider_cache r n s res s' :
  turboModuleProvider r n s = (res, s') →
  turboModuleCache_ s' = turboModuleCache_ s ∨
  ∃ c, turboModuleCache_ s = Some c ∧ c !! n = None ∧
       turboModuleCache_ s' = Some (<[n := res]> c).
Proof.
  intros H%provider_outcome_eq.
  inversion H as [ | ? ? ? ? ? ? [Hs _] | ? ? ? ? ? ? ? [Hs _]
                   | ? ? ? ? ? ? ? ? [Hs _] | ? ? ? ? ? ? ? ? ? ? ? [Hs _]
                   | ? ? ? ? ? ? ? ? [Hs _] ]; subst; simpl;
    rewrite ?Hs; eauto.
Qed.

(** The trace only grows. *)
Lemma provider_trace r n s :
  trace (snd (turboModuleProvider r n s)) = trace s ++ events r n s.
Proof.
  unfold events.
  destruct (turboModuleProvider r n s) as [res s'] eqn:H.
  apply provider_outcome_eq in H.
  inversion H; subst; simpl;
    rewrite ?drop_app_length, ?drop_all, ?app_nil_r; reflexivity.
Qed.

Lemma events_after r n s res c w es h :
  turboModuleProvider r n s = (res, after s c w es h) → events r n s = es.
Proof.
  intros H. unfold events. rewrite H. simpl. by rewrite drop_app_length.
Qed.

Lemma provider_gone r n s :
  turboModuleCache_ s = None ∨ jsCallInvoker_ s = None ∨
  nativeCallInvoker_ s = None ∨ delegate_ s = None ∨ javaPart_ s = None →
  fst (turboModuleProvider r n s) = None ∧
  snd (turboModuleProvider r n s) = s ∧
  events r n s = [].
Proof.
  intros H. unfold events. rewrite (provider_not_locked r n s H). simpl.
  by rewrite drop_all.
Qed.

(** ** One lookup *)

(** C3 (lifetime guard).  If any one of the five weak references (cache,
    JS invoker, native invoker, delegate, Java manager) does not lock, the
    lookup returns the null pointer and the state is the one it started
    from: no event, no call to a provider, no change of the cache. *)
Theorem lifetime_guard_fail_safe r n s :
  turboModuleCache_ s = None ∨ jsCallInvoker_ s = None ∨
  nativeCallInvoker_ s = None ∨ delegate_ s = None ∨ javaPart_ s = None →
  fst (turboModuleProvider r n s) = None ∧
  snd (turboModuleProvider r n s) = s ∧
  events r n s = [] ∧
  turboModuleCache_ (snd (turboModuleProvider r n s)) = turboModuleCache_ s.
Proof.
  intros H. unfold events. rewrite (provider_not_locked r n s H). simpl.
  by rewrite drop_all.
Qed.

(** C2 (priority order).  On a cache miss the first call out of the
    resolver is the delegate's [getTurboModule(name, jsCallInvoker)].
    When it answers with a module, that module is put in the cache and
    returned, and it is the only call made: neither [getLegacyCxxModule]
    nor [getJavaModule] is consulted. *)
Theorem native_fast_path_priority r n s c js nv d j :
  locked s c js nv d j → c !! n = None →
  (∃ rest, events r n s =
     [Perf moduleJSRequireBeginningStart n;
      Perf moduleJSRequireBeginningEnd n;
      Call (Call_getTurboModule (delegate_ref d) n js)] ++ rest) ∧
  (∀ m w1, getTurboModule d n js (world s) = (Some m, w1) →
     fst (turboModuleProvider r n s) = Some m ∧
     turboModuleCache_ (snd (turboModuleProvider r n s))
       = Some (<[n := Some m]> c) ∧
     provider_calls (events r n s)
       = [Call (Call_getTurboModule (delegate_ref d) n js)] ∧
     world (snd (turboModuleProvider r n s)) = w1).
Proof.
  intros Hl Hc. split.
  - destruct (getTurboModule d n js (world s)) as [[m|] w1] eqn:H1.
    { erewrite events_after by (by eapply provider_cxx). by exists []. }
    destruct (getLegacyCxxModule j n w1) as [[l|] w2] eqn:H2.
    { erewrite events_after by (by eapply provider_legacy). by eexists. }
    destruct (getJavaModule j n w2) as [[inst|] w3] eqn:H3.
    + destruct (getTurboModule_params d n
        {| moduleName := n; instance := inst; jsInvoker := js;
           nativeInvoker := nv; retainJSCallback := r |} w3)
        as [v w4] eqn:H4.
      erewrite events_after by (by eapply provider_java). by eexists.
    + erewrite events_after by (by eapply provider_all_empty). by eexists.
  - intros m w1 H1.
    pose proof (provider_cxx r n s c js nv d j m w1 Hl Hc H1) as H.
    rewrite (events_after _ _ _ _ _ _ _ _ H), H. done.
Qed.

(** C6, as amended (legacy tier).  When the delegate has no native
    module, the legacy module is asked of the Java manager ([javaPart]),
    not of the delegate.  When there is one it is wrapped in a new
    [TurboCxxModule], built from its C++ module and the JS invoker; the
    adapter is put in the cache and returned. *)
Theorem legacy_tier_routing r n s c js nv d j w1 l w2 :
  locked s c js nv d j → c !! n = None →
  getTurboModule d n js (world s) = (None, w1) →
  getLegacyCxxModule j n w1 = (Some l, w2) →
  let adapter := TurboCxxModule (heapNext s) (getModule l) js in
  fst (turboModuleProvider r n s) = Some adapter ∧
  turboModuleCache_ (snd (turboModuleProvider r n s))
    = Some (<[n := Some adapter]> c) ∧
  provider_calls (events r n s)
    = [Call (Call_getTurboModule (delegate_ref d) n js);
       Call (Call_getLegacyCxxModule (javaPart_ref j) n)] ∧
  world (snd (turboModuleProvider r n s)) = w2 ∧
  heapNext (snd (turboModuleProvider r n s)) = S (heapNext s).
Proof.
  intros Hl Hc H1 H2 adapter.
  pose proof (provider_legacy r n s c js nv d j w1 l w2 Hl Hc H1 H2) as H.
  rewrite (events_after _ _ _ _ _ _ _ _ H), H. done.
Qed.

(** C7, as amended (markers of the native path).  A lookup that misses
    the cache and is answered by the delegate's native module records
    [moduleJSRequireBeginningStart] and [moduleJSRequireBeginningEnd],
    both before the delegate is asked, and nothing after it: no
    [moduleJSRequireEndingStart] and no [moduleJSRequireEndingEnd]. *)
Theorem native_fast_path_markers r n s c js nv d j m w1 :
  locked s c js nv d j → c !! n = None →
  getTurboModule d n js (world s) = (Some m, w1) →
  fst (turboModuleProvider r n s) = Some m ∧
  events r n s =
    [Perf moduleJSRequireBeginningStart n;
     Perf moduleJSRequireBeginningEnd n;
     Call (Call_getTurboModule (delegate_ref d) n js)] ∧
  perf_events (events r n s) =
    [Perf moduleJSRequireBeginningStart n;
     Perf moduleJSRequireBeginningEnd n].
Proof.
  intros Hl Hc H1.
  pose proof (provider_cxx r n s c js nv d j m w1 Hl Hc H1) as H.
  rewrite (events_after _ _ _ _ _ _ _ _ H), H. done.
Qed.

(** C10 (the managed tier inserts without a check).  When the first two
    tiers have nothing and [getJavaModule] hands out an instance,
    whatever the delegate's [getTurboModule(name, params)] returns is
    inserted under the name and returned.  A null result is inserted as
    well: the cache then has an entry for the name that holds the null
    pointer, and null is what the caller gets. *)
Theorem managed_tier_insert_unconditional r n s c js nv d j w1 w2 inst w3 v w4 :
  locked s c js nv d j → c !! n = None →
  getTurboModule d n js (world s) = (None, w1) →
  getLegacyCxxModule j n w1 = (None, w2) →
  getJavaModule j n w2 = (Some inst, w3) →
  getTurboModule_params d n
    {| moduleName := n; instance := inst; jsInvoker := js;
       nativeInvoker := nv; retainJSCallback := r |} w3 = (v, w4) →
  fst (turboModuleProvider r n s) = v ∧
  turboModuleCache_ (snd (turboModuleProvider r n s)) = Some (<[n := v]> c) ∧
  entry (snd (turboModuleProvider r n s)) n = Some v ∧
  (v = None →
   fst (turboModuleProvider r n s) = None ∧
   entry (snd (turboModuleProvider r n s)) n = Some None).
Proof.
  intros Hl Hc H1 H2 H3 H4.
  rewrite (provider_java r n s c js nv d j w1 w2 inst w3 v w4 Hl Hc H1 H2 H3 H4).
  unfold entry. simpl. rewrite lookup_insert_eq.
  do 3 (split; [done|]). by intros ->.
Qed.

(** ** Runs of the installed closure *)

Lemma run_cons r a acts s : run r (a :: acts) s = run r acts (step r a s).
Proof. reflexivity. Qed.

Lemma entry_gone s n : turboModuleCache_ s = None → entry s n = None.
Proof. unfold entry. by intros ->. Qed.

Lemma entry_Some s n v :
  entry s n = Some v ↔ ∃ c, turboModuleCache_ s = Some c ∧ c !! n = Some v.
Proof.
  unfold entry. destruct (turboModuleCache_ s) as [c|]; simpl.
  - split; [by exists c | by intros (? & [= <-] & ?)].
  - split; [done | by intros (? & ? & ?)].
Qed.

(** A destroyed cache stays destroyed. *)
Lemma step_cache_gone r a s :
  turboModuleCache_ s = None → turboModuleCache_ (step r a s) = None.
Proof.
  intros H. destruct a as [k|dep|f]; simpl.
  - destruct (turboModuleProvider r k s) as [res s'] eqn:Hp.
    by apply (provider_frame _ _ _ _ _ Hp).
  - by destruct dep.
  - done.
Qed.

(** The delegate and the Java manager are the same objects for as long
    as they live. *)
Lemma step_collaborators r a s :
  (delegate_ (step r a s) = delegate_ s ∨ delegate_ (step r a s) = None) ∧
  (javaPart_ (step r a s) = javaPart_ s ∨ javaPart_ (step r a s) = None).
Proof.
  destruct a as [k|dep|f]; simpl.
  - destruct (turboModuleProvider r k s) as [res s'] eqn:Hp. simpl.
    destruct (provider_frame _ _ _ _ _ Hp) as (_ & _ & -> & -> & _). auto.
  - destruct dep; auto.
  - auto.
Qed.

(** An entry of the cache survives every step that leaves the cache
    alive. *)
Lemma step_entry_kept r a s n v :
  entry s n = Some v →
  turboModuleCache_ (step r a s) = None ∨ entry (step r a s) n = Some v.
Proof.
  intros He. destruct a as [k|dep|f]; simpl.
  - right. destruct (turboModuleProvider r k s) as [res s'] eqn:Hp. simpl.
    destruct (provider_cache _ _ _ _ _ Hp) as [Hsame | (c & Hs & Hk & Hs')].
    + unfold entry in *. by rewrite Hsame.
    + apply entry_Some in He as (c0 & Hc0 & Hn).
      assert (c0 = c) as -> by congruence.
      apply entry_Some. exists (<[k := res]> c). split; [done|].
      rewrite lookup_insert_ne; [done | congruence].
  - destruct dep; auto.
  - auto.
Qed.

Lemma run_entry_kept r acts s n v :
  entry s n = Some v →
  turboModuleCache_ (run r acts s) = None ∨ entry (run r acts s) n = Some v.
Proof.
  revert s. induction acts as [|a acts IH]; intros s He; [by right|].
  rewrite run_cons.
  destruct (step_entry_kept r a s n v He) as [Hgone | Hk]; [|by apply IH].
  left. clear He IH. revert Hgone. generalize (step r a s). clear s.
  induction acts as [|b acts IH]; intros s Hs; [done|].
  rewrite run_cons. by apply IH, step_cache_gone.
Qed.

(** A lookup that returns a module leaves it in the cache. *)
Lemma provider_success_cached r n s m s1 :
  turboModuleProvider r n s = (Some m, s1) → entry s1 n = Some (Some m).
Proof.
  intros H%provider_outcome_eq. apply entry_Some.
  inversion H as [ | ? ? ? ? ? ? [Hs _] | ? ? ? ? ? ? ? [Hs _]
                   | ? ? ? ? ? ? ? ? [Hs _] | ? ? ? ? ? ? ? ? ? ? ? [Hs _]
                   | ? ? ? ? ? ? ? ? [Hs _] ]; subst; simpl;
    eexists; (split; [done|]); by rewrite ?lookup_insert_eq.
Qed.

Lemma results_cons r a acts s :
  results r (a :: acts) s =
    match a with
    | Lookup k => [(k, fst (turboModuleProvider r k s))]
    | _ => []
    end ++ results r acts (step r a s).
Proof. reflexivity. Qed.

(** Where the cache is gone or holds [m] for [n], a lookup for [n]
    returns [m] or null. *)
Lemma provider_settled r n s m :
  turboModuleCache_ s = None ∨ entry s n = Some (Some m) →
  fst (turboModuleProvider r n s) = Some m ∨
  fst (turboModuleProvider r n s) = None.
Proof.
  intros Hset.
  destruct (locked_or_not s) as [(c & js & nv & d & j & Hl) | Hgone].
  - left. destruct Hl as (Hs & Hrest).
    destruct Hset as [Hnone | He]; [by rewrite Hnone in Hs|].
    apply entry_Some in He as (c0 & Hc0 & Hn).
    rewrite Hs in Hc0. injection Hc0 as <-.
    by erewrite provider_cache_hit.
  - right. by apply provider_gone.
Qed.

Lemma results_settled r n acts s m m' :
  turboModuleCache_ s = None ∨ entry s n = Some (Some m) →
  (n, Some m') ∈ results r acts s → m' = m.
Proof.
  revert s. induction acts as [|a acts IH]; intros s Hset Hin.
  { by apply elem_of_nil in Hin. }
  rewrite results_cons in Hin. apply elem_of_app in Hin as [Hin | Hin].
  - destruct a as [k|dep|f]; try by apply elem_of_nil in Hin.
    apply list_elem_of_singleton in Hin. injection Hin as <- Hres.
    destruct (provider_settled r n s m Hset) as [E|E];
      rewrite E in Hres; by simplify_eq.
  - apply (IH (step r a s)); [|done].
    destruct Hset as [Hnone | He].
    + left. by apply step_cache_gone.
    + by apply step_entry_kept.
Qed.

(** C1 (single instantiation).  Once a lookup for [n] has returned the
    module [m], then after any further run of lookups (for any names),
    teardown steps and outside changes, [m] is still what the cache holds
    for [n] while the cache lives, every lookup for [n] in that run that
    returned a module returned [m], and one more lookup for [n] either
    finds [n] in the cache and returns the very same [m], with no call to
    a provider, no allocation and no change of the cache, or returns null
    and does nothing (the guard failed).  So no second module is ever
    made or cached for [n]. *)
Theorem single_instantiation r n s m s1 acts :
  turboModuleProvider r n s = (Some m, s1) →
  let s2 := run r acts s1 in
  let res := fst (turboModuleProvider r n s2) in
  let s3 := snd (turboModuleProvider r n s2) in
  entry s1 n = Some (Some m) ∧
  (∀ c2, turboModuleCache_ s2 = Some c2 → c2 !! n = Some (Some m)) ∧
  (∀ m', (n, Some m') ∈ results r acts s1 → m' = m) ∧
  ((res = Some m ∧
    events r n s2 = [Perf moduleJSRequireBeginningStart n;
                     Perf moduleJSRequireBeginningCacheHit n;
                     Perf moduleJSRequireBeginningEnd n])
   ∨ (res = None ∧ events r n s2 = [])) ∧
  provider_calls (events r n s2) = [] ∧
  world s3 = world s2 ∧ heapNext s3 = heapNext s2 ∧
  turboModuleCache_ s3 = turboModuleCache_ s2.
Proof.
  intros H s2 res s3. subst res s3.
  pose proof (provider_success_cached _ _ _ _ _ H) as He.
  split; [done|].
  pose proof (run_entry_kept r acts s1 n _ He) as Hk. fold s2 in Hk.
  assert (∀ c2, turboModuleCache_ s2 = Some c2 → c2 !! n = Some (Some m))
    as Hc2.
  { intros c2 Hs2. destruct Hk as [Hk|Hk]; [by rewrite Hk in Hs2|].
    apply entry_Some in Hk as (c & Hc & ?). rewrite Hc in Hs2.
    by injection Hs2 as <-. }
  split; [done|].
  split; [intros m'; apply results_settled; by right|].
  destruct (locked_or_not s2) as [(c & js & nv & d & j & Hl) | Hgone].
  - pose proof (provider_cache_hit r n s2 c js nv d j (Some m) Hl
                  (Hc2 c (proj1 Hl))) as Hhit.
    rewrite (events_after _ _ _ _ _ _ _ _ Hhit), Hhit. simpl.
    destruct Hl as (-> & _). auto 10.
  - destruct (provider_gone r n s2 Hgone) as (-> & -> & ->). auto 10.
Qed.

(** *** Names that nobody provides *)

Lemma step_no_provider r a s n :
  no_provider n s → no_provider n (step r a s).
Proof.
  intros [Hd Hj].
  destruct (step_collaborators r a s) as [[Ed|Ed] [Ej|Ej]];
    split; rewrite ?Ed, ?Ej; try done.
Qed.

(** With no provider for [n], a lookup creates no entry for [n]. *)
Lemma provider_no_provider r k s n :
  no_provider n s → entry s n = None →
  entry (snd (turboModuleProvider r k s)) n = None.
Proof.
  intros [Hd Hj] He.
  destruct (turboModuleProvider r k s) as [res s'] eqn:Hp. simpl.
  destruct (decide (k = n)) as [->|Hne].
  - apply provider_outcome_eq in Hp.
    inversion Hp as [ | ? ? ? ? ? ? Hl | c js nv d j ? w1 Hl ? H1
                     | c js nv d j w1 l w2 Hl ? H1 H2
                     | c js nv d j w1 w2 inst w3 ? w4 Hl ? H1 H2 H3
                     | ? ? ? ? ? ? ? ? Hl ]; subst; try done.
    + destruct Hl as (Hs & _). unfold entry in *. simpl.
      by rewrite Hs in He.
    + destruct Hl as (_ & _ & _ & Hdel & _).
      specialize (Hd _ Hdel js (world s)). by rewrite H1 in Hd.
    + destruct Hl as (_ & _ & _ & _ & Hjp).
      destruct (Hj _ Hjp w1) as [Hleg _]. by rewrite H2 in Hleg.
    + destruct Hl as (_ & _ & _ & _ & Hjp).
      destruct (Hj _ Hjp w2) as [_ Hjava]. by rewrite H3 in Hjava.
  - destruct (provider_cache _ _ _ _ _ Hp) as [Hsame | (c & Hs & Hk & Hs')].
    + unfold entry in *. by rewrite Hsame.
    + unfold entry in *. rewrite Hs'. rewrite Hs in He. simpl in *.
      by rewrite lookup_insert_ne.
Qed.

Lemma step_no_entry r a s n :
  no_provider n s → entry s n = None → entry (step r a s) n = None.
Proof.
  intros Hnp He. destruct a as [k|dep|f]; simpl.
  - by apply provider_no_provider.
  - unfold entry in *. by destruct dep.
  - done.
Qed.

Lemma run_no_entry r acts s n :
  no_provider n s → entry s n = None →
  no_provider n (run r acts s) ∧ entry (run r acts s) n = None.
Proof.
  revert s. induction acts as [|a acts IH]; intros s Hnp He; [done|].
  rewrite run_cons. apply IH; [by apply step_no_provider|].
  by apply step_no_entry.
Qed.

(** C4 (idempotent miss).  Take a name for which all three providers
    come back empty and which has no entry.  After any run (further
    lookups of this or other names included) there is still no entry
    for it, and one more lookup returns null, leaves the cache as it is
    and, when the five references lock, walks the whole chain again:
    delegate, legacy, managed, in this order. *)
Theorem idempotent_miss r n acts s :
  no_provider n s → entry s n = None →
  let s2 := run r acts s in
  entry s2 n = None ∧
  fst (turboModuleProvider r n s2) = None ∧
  entry (snd (turboModuleProvider r n s2)) n = None ∧
  turboModuleCache_ (snd (turboModuleProvider r n s2)) = turboModuleCache_ s2 ∧
  (∀ c js nv d j, locked s2 c js nv d j →
     provider_calls (events r n s2) =
       [Call (Call_getTurboModule (delegate_ref d) n js);
        Call (Call_getLegacyCxxModule (javaPart_ref j) n);
        Call (Call_getJavaModule (javaPart_ref j) n)]).
Proof.
  intros Hnp He s2.
  destruct (run_no_entry r acts s n Hnp He) as [Hnp2 He2]. fold s2 in Hnp2, He2.
  split; [done|].
  destruct (locked_or_not s2) as [(c & js & nv & d & j & Hl) | Hgone].
  2: { destruct (provider_gone r n s2 Hgone) as (-> & -> & _).
       repeat split; try done.
       intros c js nv d j (? & ? & ? & ? & ?).
       destruct Hgone as [?|[?|[?|[?|?]]]]; congruence. }
  pose proof Hl as (Hs & _ & _ & Hdel & Hjp).
  assert (c !! n = None) as Hc.
  { unfold entry in He2. by rewrite Hs in He2. }
  destruct Hnp2 as [Hd Hj].
  destruct (getTurboModule d n js (world s2)) as [o1 w1] eqn:H1.
  pose proof (Hd _ Hdel js (world s2)) as E1. rewrite H1 in E1.
  simpl in E1. subst o1.
  destruct (getLegacyCxxModule j n w1) as [o2 w2] eqn:H2.
  destruct (getJavaModule j n w2) as [o3 w3] eqn:H3.
  destruct (Hj _ Hjp w1) as [E2 _]. destruct (Hj _ Hjp w2) as [_ E3].
  rewrite H2 in E2. rewrite H3 in E3. simpl in E2, E3. subst o2 o3.
  pose proof (provider_all_empty r n s2 c js nv d j w1 w2 w3 Hl Hc H1 H2 H3)
    as Hp.
  rewrite Hp. simpl. unfold entry. simpl.
  repeat split; try done.
  intros c' js' nv' d' j' (? & ? & ? & ? & ?).
  rewrite (events_after _ _ _ _ _ _ _ _ Hp).
  assert (js' = js) as -> by (destruct Hl as (_ & ? & _); congruence).
  assert (d' = d) as -> by congruence.
  assert (j' = j) as -> by congruence. done.
Qed.

(** *** Writes to the cache *)

Lemma cache_insert_present n x c v :
  c !! n = Some v → cache_insert n x c = c.
Proof. unfold cache_insert. by intros ->. Qed.

Lemma cache_insert_absent n x c :
  c !! n = None → cache_insert n x c = <[n := x]> c.
Proof. unfold cache_insert. by intros ->. Qed.

Lemma writes_cache_gone r n acts s :
  turboModuleCache_ s = None → writes r n acts s = 0.
Proof.
  revert s. induction acts as [|a acts IH]; intros s Hs; [done|]. simpl.
  pose proof (step_cache_gone r a s Hs) as Hs'.
  by rewrite (entry_gone _ n Hs'), (IH _ Hs').
Qed.

Lemma writes_present r n acts s v :
  entry s n = Some v → writes r n acts s = 0.
Proof.
  revert s. induction acts as [|a acts IH]; intros s He; [done|]. simpl.
  destruct (step_entry_kept r a s n v He) as [Hgone | Hk].
  - by rewrite (entry_gone _ n Hgone), (writes_cache_gone _ _ _ _ Hgone).
  - rewrite Hk, He, (IH _ Hk). by rewrite bool_decide_eq_true_2.
Qed.

Lemma writes_at_most_once r n acts s : writes r n acts s ≤ 1.
Proof.
  revert s. induction acts as [|a acts IH]; intros s; simpl; [lia|].
  destruct (entry (step r a s) n) as [v|] eqn:He'.
  - rewrite (writes_present r n acts _ v He'). case_bool_decide; lia.
  - specialize (IH (step r a s)). lia.
Qed.

(** C5 (write-once cache).  Inserting under a name that is present does
    nothing.  An entry, once there, keeps its value through every run for
    as long as the cache lives, and no step writes under its name again.
    From any state whatever, a run writes under a given name at most
    once. *)
Theorem cache_write_once r n acts s v x :
  entry s n = Some v →
  (∀ c, turboModuleCache_ s = Some c → cache_insert n x c = c) ∧
  (∀ c', turboModuleCache_ (run r acts s) = Some c' → c' !! n = Some v) ∧
  writes r n acts s = 0 ∧
  (∀ acts0 s0, writes r n acts0 s0 ≤ 1).
Proof.
  intros He. repeat split.
  - intros c Hc. apply entry_Some in He as (c0 & Hc0 & Hn).
    rewrite Hc0 in Hc. injection Hc as <-.
    by apply (cache_insert_present _ _ _ v).
  - intros c' Hc'.
    destruct (run_entry_kept r acts s n v He) as [Hgone | Hk].
    + by rewrite Hgone in Hc'.
    + apply entry_Some in Hk as (c0 & Hc0 & Hn).
      rewrite Hc0 in Hc'. by injection Hc' as <-.
  - by apply (writes_present _ _ _ _ v).
  - intros. apply writes_at_most_once.
Qed.

End ResolverFacts.

(** * Properties of the manager *)

Section ManagerFacts.
Context {World : Type}.
Implicit Types (jThis : @JavaPart World)
  (delegate : @TurboModuleManagerDelegate World)
  (js nv : shared_ptr CallInvoker) (cs : Collections).

Lemma installJSIBindings_members (this : @TurboModuleManager World) :
  fst (installJSIBindings this) = this.
Proof. unfold installJSIBindings. by destruct (this_jsCallInvoker_ this). Qed.

Lemma installJSIBindings_captures (this : @TurboModuleManager World) b :
  snd (installJSIBindings this) = Some b →
  binding_retainJSCallback b = this_retainJSCallback_ this ∧
  binding_longLivedObjectCollection b = this_longLivedObjectCollection_ this.
Proof.
  unfold installJSIBindings.
  destruct (this_jsCallInvoker_ this); simpl; [|done]. by intros [= <-].
Qed.

(** A callback retained by the scoped lambda ends up in the collection
    the lambda captured, and nowhere else. *)
Lemma retainScoped_registers a callback runtime inv cs :
  ∃ w cs',
    call_retainJSCallback (retainScoped (Some a)) callback runtime inv cs
      = Some (w, cs') ∧
    cw_callback w = callback ∧
    ownedCollections cs' !! a
      = Some (default [] (ownedCollections cs !! a) ++ [w]) ∧
    globalCollection cs' = globalCollection cs.
Proof.
  simpl. unfold createWeak. do 2 eexists. split; [reflexivity|]. simpl.
  by rewrite lookup_insert_eq.
Qed.

(** C8 (retention policy).  The two flags fix one strategy when the
    manager is built.  [installJSIBindings], the only other member
    function that touches the object, assigns no member, and the closure
    it installs captures the factory and the collection the constructor
    chose.  With neither flag there is no factory and no collection.
    With only the manager-scoped flag a new, empty collection is made and
    owned by the manager, and every callback retained through the factory
    is added to that collection (and not to the global one). *)
Theorem retention_policy_selection jThis (rt : jsi_Runtime) js nv delegate
    (useGlobal useScoped : bool) cs :
  let new := TurboModuleManager_new jThis rt js nv delegate in
  let this := fst (new useGlobal useScoped cs) in
  retentionStrategy this =
    (if useGlobal then GlobalCollection
     else if useScoped then ManagerScopedCollection else NoRetention) ∧
  fst (installJSIBindings this) = this ∧
  (∀ b, snd (installJSIBindings this) = Some b →
        binding_retainJSCallback b = this_retainJSCallback_ this ∧
        binding_longLivedObjectCollection b
          = this_longLivedObjectCollection_ this) ∧
  (this_retainJSCallback_ (fst (new false false cs)) = None ∧
   this_longLivedObjectCollection_ (fst (new false false cs)) = None ∧
   retentionStrategy (fst (new false false cs)) = NoRetention ∧
   snd (new false false cs) = cs) ∧
  (∃ a,
     a = nextCollection cs ∧
     this_longLivedObjectCollection_ (fst (new false true cs)) = Some a ∧
     this_retainJSCallback_ (fst (new false true cs))
       = Some (retainScoped (Some a)) ∧
     ownedCollections (snd (new false true cs)) !! a = Some [] ∧
     globalCollection (snd (new false true cs)) = globalCollection cs ∧
     ∀ callback runtime inv cs1, ∃ w cs2,
       call_retainJSCallback (retainScoped (Some a)) callback runtime inv cs1
         = Some (w, cs2) ∧
       cw_callback w = callback ∧
       ownedCollections cs2 !! a
         = Some (default [] (ownedCollections cs1 !! a) ++ [w]) ∧
       globalCollection cs2 = globalCollection cs1).
Proof.
  intros new this. split.
  { subst this new. unfold TurboModuleManager_new.
    by destruct useGlobal, useScoped. }
  split; [apply installJSIBindings_members|].
  split; [apply installJSIBindings_captures|].
  split; [done|].
  exists (nextCollection cs). subst new. simpl.
  rewrite lookup_insert_eq. do 5 (split; [done|]).
  intros. apply retainScoped_registers.
Qed.

(** C9 (the global flag wins).  With both flags set the constructor
    takes the first branch: the global strategy is selected, the
    manager's [longLivedObjectCollection_] is null, and no collection is
    made. *)
Theorem global_flag_precedence jThis (rt : jsi_Runtime) js nv delegate cs :
  let built := TurboModuleManager_new jThis rt js nv delegate true true cs in
  retentionStrategy (fst built) = GlobalCollection ∧
  this_retainJSCallback_ (fst built) = Some retainGlobal ∧
  this_longLivedObjectCollection_ (fst built) = None ∧
  snd built = cs.
Proof. done. Qed.

End ManagerFacts.

(** * The properties on the concrete configuration *)

Lemma demo_locked : locked demo_state ∅ 2 3 demo_delegate demo_javaPart.
Proof. by repeat split. Qed.

Lemma demo_events_Foo :
  events None "Foo" demo_state =
    [Perf moduleJSRequireBeginningStart "Foo";
     Perf moduleJSRequireBeginningEnd "Foo";
     Call (Call_getTurboModule 10 "Foo" 2)].
Proof. reflexivity. Qed.

Lemma demo_events_Legacy :
  events None "Legacy" demo_state =
    [Perf moduleJSRequireBeginningStart "Legacy";
     Perf moduleJSRequireBeginningEnd "Legacy";
     Call (Call_getTurboModule 10 "Legacy" 2);
     Call (Call_getLegacyCxxModule 20 "Legacy");
     Perf moduleJSRequireEndingStart "Legacy";
     Perf moduleJSRequireEndingEnd "Legacy"].
Proof. reflexivity. Qed.

(** C6 as stated fails: in the lookup of "Legacy" the legacy module is
    asked of the Java manager (object 20), not of the delegate (object
    10) that was asked for the native module. *)
Lemma legacy_not_queried_via_delegate :
  ¬ legacy_queried_via_delegate None "Legacy" demo_state.
Proof.
  intros H. specialize (H demo_delegate eq_refl 20 "Legacy").
  rewrite demo_events_Legacy in H.
  assert (20 = delegate_ref demo_delegate) as E; [|discriminate E].
  apply H. do 3 apply list_elem_of_further. apply list_elem_of_here.
Qed.

(** C7 as stated fails: the lookup of "Foo" is answered by the delegate's
    native module, and no marker is recorded after that call; in
    particular no [moduleJSRequireEndingEnd]. *)
Lemma native_fast_path_records_no_end :
  fst (turboModuleProvider None "Foo" demo_state) = Some (DelegateModule 0) ∧
  ¬ marker_after_native_call None "Foo" demo_state ∧
  Perf moduleJSRequireEndingEnd "Foo" ∉ events None "Foo" demo_state.
Proof.
  split; [reflexivity|]. split.
  - intros (before & receiver & js & marker & rest & E & Hin).
    rewrite demo_events_Foo in E.
    destruct before as [|e1 [|e2 [|e3 [|e4 before]]]]; simplify_eq/=.
    by apply elem_of_nil in Hin.
  - rewrite demo_events_Foo. intros Hin.
    repeat (apply elem_of_cons in Hin as [Hin|Hin]; [discriminate Hin|]).
    by apply elem_of_nil in Hin.
Qed.

(** ** The theorems at work *)

Lemma lifetime_guard_fail_safe_witness :
  delegate_ demo_torn_down = None ∧
  fst (turboModuleProvider None "Foo" demo_torn_down) = None ∧
  snd (turboModuleProvider None "Foo" demo_torn_down) = demo_torn_down ∧
  events None "Foo" demo_torn_down = [] ∧
  turboModuleCache_ (snd (turboModuleProvider None "Foo" demo_torn_down))
    = turboModuleCache_ demo_torn_down.
Proof.
  split; [reflexivity|].
  apply (lifetime_guard_fail_safe None "Foo" demo_torn_down).
  do 3 right. left. reflexivity.
Defined.

Lemma native_fast_path_priority_witness :
  getTurboModule demo_delegate "Foo" 2 (world demo_state)
    = (Some (DelegateModule 0), 1) ∧
  fst (getLegacyCxxModule demo_javaPart "Foo" 1) ≠ None ∧
  fst (turboModuleProvider None "Foo" demo_state) = Some (DelegateModule 0) ∧
  turboModuleCache_ (snd (turboModuleProvider None "Foo" demo_state))
    = Some (<["Foo" := Some (DelegateModule 0)]> ∅) ∧
  provider_calls (events None "Foo" demo_state)
    = [Call (Call_getTurboModule 10 "Foo" 2)] ∧
  world (snd (turboModuleProvider None "Foo" demo_state)) = 1.
Proof.
  split; [reflexivity|]. split; [discriminate|].
  apply (proj2 (native_fast_path_priority None "Foo" demo_state ∅ 2 3
                  demo_delegate demo_javaPart demo_locked eq_refl)
           (DelegateModule 0) 1).
  reflexivity.
Defined.

Lemma legacy_tier_routing_witness :
  getTurboModule demo_delegate "Legacy" 2 (world demo_state) = (None, 1) ∧
  fst (turboModuleProvider None "Legacy" demo_state)
    = Some (TurboCxxModule 0 31 2) ∧
  turboModuleCache_ (snd (turboModuleProvider None "Legacy" demo_state))
    = Some (<["Legacy" := Some (TurboCxxModule 0 31 2)]> ∅) ∧
  provider_calls (events None "Legacy" demo_state)
    = [Call (Call_getTurboModule 10 "Legacy" 2);
       Call (Call_getLegacyCxxModule 20 "Legacy")] ∧
  world (snd (turboModuleProvider None "Legacy" demo_state)) = 2 ∧
  heapNext (snd (turboModuleProvider None "Legacy" demo_state)) = 1.
Proof.
  split; [reflexivity|].
  apply (legacy_tier_routing None "Legacy" demo_state ∅ 2 3
           demo_delegate demo_javaPart 1
           {| wrapper_ref := 30; getModule := 31 |} 2 demo_locked);
    reflexivity.
Defined.

Lemma native_fast_path_markers_witness :
  getTurboModule demo_delegate "Foo" 2 (world demo_state)
    = (Some (DelegateModule 0), 1) ∧
  fst (turboModuleProvider None "Foo" demo_state) = Some (DelegateModule 0) ∧
  events None "Foo" demo_state =
    [Perf moduleJSRequireBeginningStart "Foo";
     Perf moduleJSRequireBeginningEnd "Foo";
     Call (Call_getTurboModule 10 "Foo" 2)] ∧
  perf_events (events None "Foo" demo_state) =
    [Perf moduleJSRequireBeginningStart "Foo";
     Perf moduleJSRequireBeginningEnd "Foo"].
Proof.
  split; [reflexivity|].
  apply (native_fast_path_markers None "Foo" demo_state ∅ 2 3
           demo_delegate demo_javaPart (DelegateModule 0) 1 demo_locked);
    reflexivity.
Defined.

Lemma managed_tier_insert_unconditional_witness :
  getJavaModule demo_javaPart "Empty" 2 = (Some 40, 3) ∧
  fst (turboModuleProvider None "Empty" demo_state) = None ∧
  entry (snd (turboModuleProvider None "Empty" demo_state)) "Empty"
    = Some None.
Proof.
  split; [reflexivity|].
  apply (managed_tier_insert_unconditional None "Empty" demo_state ∅ 2 3
           demo_delegate demo_javaPart 1 2 40 3 None 4 demo_locked);
    reflexivity.
Defined.

Lemma single_instantiation_witness :
  let acts := [Lookup "Legacy"; Outside S; Lookup "Foo"; Lookup "Nope"] in
  let s2 := run None acts demo_after_Foo in
  turboModuleProvider None "Foo" demo_state
    = (Some (DelegateModule 0), demo_after_Foo) ∧
  (∀ c2, turboModuleCache_ s2 = Some c2 →
         c2 !! "Foo" = Some (Some (DelegateModule 0))) ∧
  (∀ m', ("Foo", Some m') ∈ results None acts demo_after_Foo →
         m' = DelegateModule 0) ∧
  provider_calls (events None "Foo" s2) = [] ∧
  world (snd (turboModuleProvider None "Foo" s2)) = world s2.
Proof.
  intros acts s2. split; [reflexivity|].
  destruct (single_instantiation None "Foo" demo_state (DelegateModule 0)
              demo_after_Foo acts eq_refl)
    as (_ & Hcached & Hsame & _ & Hcalls & Hworld & _).
  exact (conj Hcached (conj Hsame (conj Hcalls Hworld))).
Defined.

Lemma demo_no_provider_Nope : no_provider "Nope" demo_state.
Proof.
  split.
  - intros d [= <-] js w. reflexivity.
  - intros j [= <-] w. split; reflexivity.
Defined.

Lemma idempotent_miss_witness :
  let s2 := run None [Lookup "Nope"; Lookup "Foo"; Lookup "Nope"] demo_state in
  entry demo_state "Nope" = None ∧
  entry s2 "Nope" = None ∧
  fst (turboModuleProvider None "Nope" s2) = None ∧
  provider_calls (events None "Nope" s2) =
    [Call (Call_getTurboModule 10 "Nope" 2);
     Call (Call_getLegacyCxxModule 20 "Nope");
     Call (Call_getJavaModule 20 "Nope")].
Proof.
  intros s2. split; [reflexivity|].
  destruct (idempotent_miss None "Nope"
              [Lookup "Nope"; Lookup "Foo"; Lookup "Nope"] demo_state
              demo_no_provider_Nope eq_refl)
    as (Hentry & Hres & _ & _ & Hwalk).
  split; [exact Hentry|]. split; [exact Hres|].
  apply (Hwalk (<["Foo" := Some (DelegateModule 3)]> ∅) 2 3
           demo_delegate demo_javaPart).
  by repeat split.
Defined.

Lemma cache_write_once_witness :
  let acts := [Lookup "Foo"; Lookup "Legacy"; Lookup "Foo"] in
  entry demo_after_Foo "Foo" = Some (Some (DelegateModule 0)) ∧
  (∀ c', turboModuleCache_ (run None acts demo_after_Foo) = Some c' →
         c' !! "Foo" = Some (Some (DelegateModule 0))) ∧
  writes None "Foo" acts demo_after_Foo = 0.
Proof.
  intros acts. split; [reflexivity|].
  destruct (cache_write_once None "Foo" acts demo_after_Foo
              (Some (DelegateModule 0)) None eq_refl)
    as (_ & Hkept & Hwrites & _).
  exact (conj Hkept Hwrites).
Defined.

(** * Further properties of the closure *)

Section ClosureFacts.
Context {World : Type}.
Implicit Types (s : @State World) (d : @TurboModuleManagerDelegate World)
  (j : @JavaPart World) (c : TurboModuleCache) (n name : string)
  (r : option RetainJSCallback) (m : TurboModule)
  (v : shared_ptr TurboModule).

Lemma locked_unique s c js nv d j c' js' nv' d' j' :
  locked s c js nv d j → locked s c' js' nv' d' j' →
  c' = c ∧ js' = js ∧ nv' = nv ∧ d' = d ∧ j' = j.
Proof.
  intros (H1 & H2 & H3 & H4 & H5) (E1 & E2 & E3 & E4 & E5).
  rewrite H1 in E1. rewrite H2 in E2. rewrite H3 in E3.
  rewrite H4 in E4. rewrite H5 in E5.
  by injection E1 as <-; injection E2 as <-; injection E3 as <-;
     injection E4 as <-; injection E5 as <-.
Qed.

Lemma locked_entry s c js nv d j n :
  locked s c js nv d j → entry s n = c !! n.
Proof. intros (Hs & _). unfold entry. by rewrite Hs. Qed.

(** The five ways through a lookup whose references lock, each with the
    equation of its result in [Hp]. *)
Ltac provider_cases r n s c js nv d j Hl :=
  destruct (c !! n) as [v0|] eqn:Hc;
  [ pose proof (provider_cache_hit r n s c js nv d j v0 Hl Hc) as Hp
  | destruct (getTurboModule d n js (world s)) as [[m0|] w1] eqn:H1;
    [ pose proof (provider_cxx r n s c js nv d j m0 w1 Hl Hc H1) as Hp
    | destruct (getLegacyCxxModule j n w1) as [[l0|] w2] eqn:H2;
      [ pose proof (provider_legacy r n s c js nv d j w1 l0 w2 Hl Hc H1 H2)
          as Hp
      | destruct (getJavaModule j n w2) as [[inst0|] w3] eqn:H3;
        [ destruct (getTurboModule_params d n
            {| moduleName := n; instance := inst0; jsInvoker := js;
               nativeInvoker := nv; retainJSCallback := r |} w3)
            as [v0 w4] eqn:H4;
          pose proof (provider_java r n s c js nv d j w1 w2 inst0 w3 v0 w4
                        Hl Hc H1 H2 H3 H4) as Hp
        | pose proof (provider_all_empty r n s c js nv d j w1 w2 w3
                        Hl Hc H1 H2 H3) as Hp ] ] ] ].

(** What a lookup does when the name has an entry or the cache is gone:
    it returns the entry or null and calls nobody. *)
Lemma provider_of_entry r n s v :
  turboModuleCache_ s = None ∨ entry s n = Some v →
  (fst (turboModuleProvider r n s) = v ∨
   fst (turboModuleProvider r n s) = None) ∧
  provider_calls (events r n s) = [] ∧
  world (snd (turboModuleProvider r n s)) = world s ∧
  turboModuleCache_ (snd (turboModuleProvider r n s)) = turboModuleCache_ s.
Proof.
  intros Hset.
  destruct (locked_or_not s) as [(c & js & nv & d & j & Hl) | Hgone].
  - pose proof Hl as (Hs & _).
    destruct Hset as [Hnone | He]; [by rewrite Hnone in Hs|].
    rewrite (locked_entry _ _ _ _ _ _ _ Hl) in He.
    pose proof (provider_cache_hit r n s c js nv d j v Hl He) as Hp.
    rewrite (events_after _ _ _ _ _ _ _ _ Hp), Hp. simpl. by rewrite Hs; auto.
  - destruct (provider_gone r n s Hgone) as (-> & -> & ->). auto.
Qed.

(** ** The managed tier *)

(** X1.  When the first two tiers have nothing and [getJavaModule] hands
    out an instance, the lookup makes exactly four calls, in this order:
    the delegate's native lookup, [getLegacyCxxModule], [getJavaModule]
    and the delegate's [getTurboModule(name, params)].  The parameters
    carry the looked-up name, the instance just handed out, the JS and
    the native invoker that were locked, and the retained-callback
    factory the closure captured.  The two Ending markers bracket that
    last call, and nothing is allocated. *)
Theorem managed_tier_route r n s c js nv d j w1 w2 inst w3 v w4 :
  locked s c js nv d j → c !! n = None →
  getTurboModule d n js (world s) = (None, w1) →
  getLegacyCxxModule j n w1 = (None, w2) →
  getJavaModule j n w2 = (Some inst, w3) →
  getTurboModule_params d n
    {| moduleName := n; instance := inst; jsInvoker := js;
       nativeInvoker := nv; retainJSCallback := r |} w3 = (v, w4) →
  events r n s =
    [Perf moduleJSRequireBeginningStart n;
     Perf moduleJSRequireBeginningEnd n;
     Call (Call_getTurboModule (delegate_ref d) n js);
     Call (Call_getLegacyCxxModule (javaPart_ref j) n);
     Call (Call_getJavaModule (javaPart_ref j) n);
     Perf moduleJSRequireEndingStart n;
     Call (Call_getTurboModule_params (delegate_ref d) n
             {| moduleName := n; instance := inst; jsInvoker := js;
                nativeInvoker := nv; retainJSCallback := r |});
     Perf moduleJSRequireEndingEnd n] ∧
  world (snd (turboModuleProvider r n s)) = w4 ∧
  heapNext (snd (turboModuleProvider r n s)) = heapNext s.
Proof.
  intros Hl Hc H1 H2 H3 H4.
  pose proof (provider_java r n s c js nv d j w1 w2 inst w3 v w4
                Hl Hc H1 H2 H3 H4) as Hp.
  by rewrite (events_after _ _ _ _ _ _ _ _ Hp), Hp.
Qed.

(** X2.  A null module is remembered.  Once the managed tier has cached
    the null pointer for a name (the delegate built nothing for the
    instance it was given), every later lookup for that name, after any
    run and whatever the providers would answer by then, returns null
    and calls no provider; the entry stays null while the cache lives. *)
Theorem null_module_is_sticky r n s c js nv d j w1 w2 inst w3 w4 acts :
  locked s c js nv d j → c !! n = None →
  getTurboModule d n js (world s) = (None, w1) →
  getLegacyCxxModule j n w1 = (None, w2) →
  getJavaModule j n w2 = (Some inst, w3) →
  getTurboModule_params d n
    {| moduleName := n; instance := inst; jsInvoker := js;
       nativeInvoker := nv; retainJSCallback := r |} w3 = (None, w4) →
  let s2 := run r acts (snd (turboModuleProvider r n s)) in
  fst (turboModuleProvider r n s2) = None ∧
  provider_calls (events r n s2) = [] ∧
  world (snd (turboModuleProvider r n s2)) = world s2 ∧
  (∀ c2, turboModuleCache_ s2 = Some c2 → c2 !! n = Some None).
Proof.
  intros Hl Hc H1 H2 H3 H4 s2.
  pose proof (provider_java r n s c js nv d j w1 w2 inst w3 None w4
                Hl Hc H1 H2 H3 H4) as Hp.
  assert (entry (snd (turboModuleProvider r n s)) n = Some None) as He.
  { rewrite Hp. unfold entry. simpl. by rewrite lookup_insert_eq. }
  pose proof (run_entry_kept r acts _ n _ He) as Hk. fold s2 in Hk.
  destruct (provider_of_entry r n s2 None Hk) as ([E|E] & Hcalls & Hw & _);
    (split; [done|]); (split; [done|]); (split; [done|]);
    intros c2 Hs2; (destruct Hk as [Hk|Hk]; [by rewrite Hk in Hs2|]);
    apply entry_Some in Hk as (c0 & Hc0 & Hn); rewrite Hc0 in Hs2;
    by injection Hs2 as <-.
Qed.

(** ** What one lookup records, calls and writes *)



(** X4.  A lookup touches no other name: the entry of every name other
    than the one looked up is the same before and after. *)
Theorem lookup_leaves_other_names r k n s :
  k ≠ n →
  entry (snd (turboModuleProvider r k s)) n = entry s n.
Proof.
  intros Hne. destruct (turboModuleProvider r k s) as [res s'] eqn:Hp. simpl.
  destruct (provider_cache _ _ _ _ _ Hp) as [Hsame | (c & Hs & Hk & Hs')];
    unfold entry.
  - by rewrite Hsame.
  - rewrite Hs', Hs. simpl. by rewrite lookup_insert_ne.
Qed.

(** X5.  What a lookup returns is what the cache holds afterwards.  When
    the references lock, either the name now has an entry and it is the
    returned pointer, or the lookup returned null, there is still no
    entry, and all three providers were asked. *)
Theorem lookup_returns_cached r n s c js nv d j :
  locked s c js nv d j →
  entry (snd (turboModuleProvider r n s)) n
    = Some (fst (turboModuleProvider r n s)) ∨
  (fst (turboModuleProvider r n s) = None ∧
   entry (snd (turboModuleProvider r n s)) n = None ∧
   provider_calls (events r n s) =
     [Call (Call_getTurboModule (delegate_ref d) n js);
      Call (Call_getLegacyCxxModule (javaPart_ref j) n);
      Call (Call_getJavaModule (javaPart_ref j) n)]).
Proof.
  intros Hl.
  provider_cases r n s c js nv d j Hl;
    rewrite ?(events_after _ _ _ _ _ _ _ _ Hp), Hp; unfold entry; simpl;
    rewrite ?lookup_insert_eq; auto.
Qed.


(** ** Whole runs *)

Lemma step_gone r a s :
  gone s →
  gone (step r a s) ∧ trace (step r a s) = trace s ∧
  heapNext (step r a s) = heapNext s ∧
  (∀ c1, turboModuleCache_ (step r a s) = Some c1 →
         turboModuleCache_ s = Some c1).
Proof.
  intros Hg. destruct a as [k|dep|f]; simpl.
  - by rewrite (provider_not_locked r k s Hg).
  - split; [|split; [done|split; [done|]]].
    + unfold gone in *. destruct dep; simpl; tauto.
    + by destruct dep.
  - done.
Qed.

Lemma run_cache_gone r acts s :
  turboModuleCache_ s = None → turboModuleCache_ (run r acts s) = None.
Proof.
  revert s. induction acts as [|a acts IH]; intros s Hs; [done|].
  rewrite run_cons. by apply IH, step_cache_gone.
Qed.

Lemma run_gone r acts s :
  gone s →
  gone (run r acts s) ∧ trace (run r acts s) = trace s ∧
  heapNext (run r acts s) = heapNext s ∧
  (∀ c2, turboModuleCache_ (run r acts s) = Some c2 →
         turboModuleCache_ s = Some c2).
Proof.
  revert s. induction acts as [|a acts IH]; intros s Hg; [done|].
  destruct (step_gone r a s Hg) as (Hg' & Htr & Hh & Hc).
  destruct (IH _ Hg') as (IH1 & IH2 & IH3 & IH4).
  rewrite run_cons, IH2, IH3, Htr, Hh. do 3 (split; [done|]).
  intros c2 Hc2. by apply Hc, IH4.
Qed.

Lemma results_gone r acts s k res :
  gone s → (k, res) ∈ results r acts s → res = None.
Proof.
  revert s. induction acts as [|a acts IH]; intros s Hg Hin.
  { by apply elem_of_nil in Hin. }
  rewrite results_cons in Hin.
  apply elem_of_app in Hin as [Hin | Hin].
  - destruct a as [k'|dep|f]; try by apply elem_of_nil in Hin.
    apply list_elem_of_singleton in Hin. injection Hin as -> ->.
    by rewrite (provider_not_locked r k' s Hg).
  - apply (IH (step r a s)); [|done]. by apply step_gone.
Qed.

(** X7.  Teardown is final.  Once one of the five captured references no
    longer locks, no run brings the closure back: every lookup of the run
    returns null, nothing is recorded, no provider is called, nothing is
    allocated, and the cache, if it is still there, keeps its contents. *)
Theorem teardown_is_final r acts s :
  gone s →
  gone (run r acts s) ∧
  trace (run r acts s) = trace s ∧
  heapNext (run r acts s) = heapNext s ∧
  (∀ k res, (k, res) ∈ results r acts s → res = None) ∧
  (∀ c2, turboModuleCache_ (run r acts s) = Some c2 →
         turboModuleCache_ s = Some c2).
Proof.
  intros Hg. destruct (run_gone r acts s Hg) as (H1 & H2 & H3 & H4).
  do 3 (split; [done|]). split; [|done].
  intros k res. by apply results_gone.
Qed.

(** One step of a live cache: the same map, or one new entry under the
    name just looked up. *)
Lemma step_cache r a s c c1 :
  turboModuleCache_ s = Some c → turboModuleCache_ (step r a s) = Some c1 →
  c1 = c ∨ ∃ k res, a = Lookup k ∧ c !! k = None ∧ c1 = <[k := res]> c.
Proof.
  intros Hs Hs1. destruct a as [k|dep|f]; simpl in Hs1.
  - destruct (turboModuleProvider r k s) as [res s'] eqn:Hp. simpl in Hs1.
    destruct (provider_cache _ _ _ _ _ Hp) as [Hsame | (c0 & Hc0 & Hk & Hs')].
    + left. rewrite Hsame, Hs in Hs1. by injection Hs1 as <-.
    + right. exists k, res. rewrite Hs in Hc0. injection Hc0 as <-.
      rewrite Hs' in Hs1. by injection Hs1 as <-.
  - left. destruct dep; simpl in Hs1; try done;
      rewrite Hs in Hs1; by injection Hs1 as <-.
  - left. rewrite Hs in Hs1. by injection Hs1 as <-.
Qed.

(** X8.  The cache only grows, and only by names that were asked for.
    If the cache is alive before and after a run, every entry it had is
    still there with the same pointer, every name it has now was there
    before or was looked up in the run, and it has gained at most one
    entry per lookup. *)
Theorem cache_grows_by_lookups r acts s c c' :
  turboModuleCache_ s = Some c →
  turboModuleCache_ (run r acts s) = Some c' →
  c ⊆ c' ∧
  (∀ k, is_Some (c' !! k) → is_Some (c !! k) ∨ k ∈ looked_up acts) ∧
  size c' ≤ size c + length (looked_up acts).
Proof.
  revert s c. induction acts as [|a acts IH]; intros s c Hs Hs'.
  { simpl in Hs'. rewrite Hs in Hs'. injection Hs' as <-.
    split; [done|]. split; [auto | simpl; lia]. }
  rewrite run_cons in Hs'.
  destruct (turboModuleCache_ (step r a s)) as [c1|] eqn:Hs1.
  2: { by rewrite (run_cache_gone r acts _ Hs1) in Hs'. }
  destruct (IH _ _ Hs1 Hs') as (Hsub & Hdom & Hsize).
  destruct (step_cache r a s c c1 Hs Hs1) as [-> | (k & res & -> & Hk & ->)].
  - split; [done|]. split.
    + intros k Hk. destruct (Hdom k Hk) as [?|Hin]; [by left|right].
      destruct a as [k'|dep|f]; simpl; [by apply list_elem_of_further | done..].
    + destruct a as [k'|dep|f]; simpl; lia.
  - split; [|split].
    + etrans; [by apply insert_subseteq | done].
    + intros k' Hk'. destruct (Hdom k' Hk') as [Hin | Hin].
      * destruct (decide (k = k')) as [->|Hne].
        -- right. apply list_elem_of_here.
        -- left. by rewrite lookup_insert_ne in Hin.
      * right. simpl. by apply list_elem_of_further.
    + rewrite map_size_insert_None in Hsize by done. simpl. lia.
Qed.

(** ** From the manager to the closure *)

(** A captured reference that locks after a step locked before it, to
    the same object. *)
Lemma step_refs r a s :
  (∀ x, jsCallInvoker_ (step r a s) = Some x → jsCallInvoker_ s = Some x) ∧
  (∀ x, nativeCallInvoker_ (step r a s) = Some x →
        nativeCallInvoker_ s = Some x) ∧
  (∀ x, delegate_ (step r a s) = Some x → delegate_ s = Some x) ∧
  (∀ x, javaPart_ (step r a s) = Some x → javaPart_ s = Some x).
Proof.
  destruct a as [k|dep|f]; simpl.
  - destruct (turboModuleProvider r k s) as [res s'] eqn:Hp. simpl.
    destruct (provider_frame _ _ _ _ _ Hp) as (-> & -> & -> & -> & _). auto.
  - destruct dep; simpl; repeat split; auto; discriminate.
  - auto.
Qed.

Lemma run_refs r acts s :
  (∀ x, jsCallInvoker_ (run r acts s) = Some x → jsCallInvoker_ s = Some x) ∧
  (∀ x, nativeCallInvoker_ (run r acts s) = Some x →
        nativeCallInvoker_ s = Some x) ∧
  (∀ x, delegate_ (run r acts s) = Some x → delegate_ s = Some x) ∧
  (∀ x, javaPart_ (run r acts s) = Some x → javaPart_ s = Some x).
Proof.
  revert s. induction acts as [|a acts IH]; intros s; [by auto|].
  rewrite run_cons.
  destruct (IH (step r a s)) as (I1 & I2 & I3 & I4).
  destruct (step_refs r a s) as (S1 & S2 & S3 & S4).
  repeat split; auto.
Qed.

(** X9.  A manager built with a JS invoker but a null native invoker
    installs its bindings, and the closure it installs never resolves
    anything: in every run every lookup returns null and nothing is
    recorded or called.  [installJSIBindings] checks the JS invoker only,
    while the closure needs both to lock. *)
Theorem null_native_invoker_never_resolves (jThis : @JavaPart World)
    (rt : jsi_Runtime) (js : CallInvoker) delegate
    (useGlobal useScoped : bool) (cs : Collections) r (w : World)
    (heap : nat) acts :
  let this := fst (TurboModuleManager_new jThis rt (Some js) None delegate
                     useGlobal useScoped cs) in
  is_Some (snd (installJSIBindings this)) ∧
  (∀ k res, (k, res) ∈ results r acts (captured this w heap) → res = None) ∧
  trace (run r acts (captured this w heap)) = [].
Proof.
  intros this.
  assert (gone (captured this w heap)) as Hg.
  { do 2 right. left. subst this. by destruct useGlobal, useScoped. }
  split.
  { subst this. destruct useGlobal, useScoped; by eexists. }
  split; [intros k res; by apply results_gone|].
  by destruct (run_gone r acts _ Hg) as (_ & -> & _).
Qed.

(** X10.  The collection given to [TurboModuleBinding::install] is the
    one the retained-callback factory registers in.  For every choice of
    the two flags, when the bindings are installed: under the global
    strategy the closure carries the global lambda and the binding gets a
    null collection; under the manager-scoped strategy the lambda the
    closure carries captured the very collection the binding gets, the
    one the constructor made; with neither flag there is no factory and
    no collection.  The binding is installed on the manager's runtime. *)
Theorem binding_collection_is_factory_collection (jThis : @JavaPart World)
    (rt : jsi_Runtime) (js nv : shared_ptr CallInvoker) delegate
    (useGlobal useScoped : bool) (cs : Collections) b :
  let built := TurboModuleManager_new jThis rt js nv delegate
                 useGlobal useScoped cs in
  snd (installJSIBindings (fst built)) = Some b →
  binding_runtime b = rt ∧
  ((useGlobal = true ∧
    binding_retainJSCallback b = Some retainGlobal ∧
    binding_longLivedObjectCollection b = None ∧ snd built = cs) ∨
   (useGlobal = false ∧ useScoped = true ∧
    binding_retainJSCallback b
      = Some (retainScoped (binding_longLivedObjectCollection b)) ∧
    binding_longLivedObjectCollection b = Some (nextCollection cs) ∧
    ownedCollections (snd built) !! nextCollection cs = Some []) ∨
   (useGlobal = false ∧ useScoped = false ∧
    binding_retainJSCallback b = None ∧
    binding_longLivedObjectCollection b = None ∧ snd built = cs)).
Proof.
  intros built. subst built. unfold installJSIBindings.
  destruct useGlobal, useScoped; simpl; destruct js; simpl;
    try discriminate; intros [= <-]; simpl;
    rewrite ?lookup_insert_eq; auto 10.
Qed.

(** X11.  From [initHybrid] to a managed module.  Take a manager made by
    [initHybrid] from two holders that hold invokers, and the closure its
    [installJSIBindings] installs.  Whenever, at any point of any run,
    that closure calls the delegate's [getTurboModule(name, params)], the
    call is made on the manager's delegate, for the name being looked up,
    and the parameters hold the JS holder's invoker as [jsInvoker], the
    native holder's invoker as [nativeInvoker] (never the other way
    round), and as [retainJSCallback] the factory the two flags
    selected. *)
Theorem hybrid_manager_params (jThis : @JavaPart World)
    (runtimeExecutor : JRuntimeExecutor)
    (jsCallInvokerHolder nativeCallInvokerHolder : CallInvokerHolder)
    delegate (useGlobal useScoped : bool) (cs : Collections)
    (js nv : CallInvoker) b (w : World) (heap : nat) acts n receiver k p :
  getCallInvoker jsCallInvokerHolder = Some js →
  getCallInvoker nativeCallInvokerHolder = Some nv →
  let this := fst (initHybrid jThis runtimeExecutor jsCallInvokerHolder
                     nativeCallInvokerHolder delegate useGlobal useScoped cs) in
  snd (installJSIBindings this) = Some b →
  let r := binding_retainJSCallback b in
  Call (Call_getTurboModule_params receiver k p)
    ∈ events r n (run r acts (captured this w heap)) →
  receiver = delegate_ref delegate ∧ k = n ∧ moduleName p = n ∧
  jsInvoker p = js ∧ nativeInvoker p = nv ∧
  retainJSCallback p =
    (if useGlobal then Some retainGlobal
     else if useScoped then Some (retainScoped (Some (nextCollection cs)))
     else None) ∧
  binding_runtime b = JRuntimeExecutor_get runtimeExecutor.
Proof.
  intros Hjs Hnv this Hb r Hin.
  assert (this_jsCallInvoker_ this = Some js ∧
          this_nativeCallInvoker_ this = Some nv ∧
          this_delegate_ this = delegate ∧
          this_retainJSCallback_ this =
            (if useGlobal then Some retainGlobal
             else if useScoped
                  then Some (retainScoped (Some (nextCollection cs)))
                  else None) ∧
          this_runtimeExecutor_ this = JRuntimeExecutor_get runtimeExecutor)
    as (Tjs & Tnv & Td & Tr & Trt).
  { subst this. unfold initHybrid. rewrite Hjs, Hnv.
    by destruct useGlobal, useScoped. }
  assert (r = this_retainJSCallback_ this ∧
          binding_runtime b = this_runtimeExecutor_ this) as [Hr Hrt].
  { subst r. unfold installJSIBindings in Hb. rewrite Tjs in Hb.
    simpl in Hb. by injection Hb as <-. }
  set (s2 := run r acts (captured this w heap)) in *.
  destruct (locked_or_not s2) as [(c & js' & nv' & d' & j' & Hl) | Hgone].
  2: { destruct (provider_gone r n s2 Hgone) as (_ & _ & E).
       rewrite E in Hin. by apply elem_of_nil in Hin. }
  destruct (run_refs r acts (captured this w heap)) as (R1 & R2 & R3 & _).
  fold s2 in R1, R2, R3.
  pose proof Hl as (_ & L2 & L3 & L4 & _).
  apply R1 in L2. apply R2 in L3. apply R3 in L4. simpl in L2, L3, L4.
  rewrite Tjs in L2. rewrite Tnv in L3. rewrite Td in L4.
  injection L2 as <-. injection L3 as <-. injection L4 as <-.
  provider_cases r n s2 c js nv delegate j' Hl;
    rewrite (events_after _ _ _ _ _ _ _ _ Hp) in Hin;
    repeat (apply elem_of_cons in Hin as [Hin|Hin];
            [try discriminate Hin|]);
    try (by apply elem_of_nil in Hin).
  injection Hin as -> -> ->. simpl. by rewrite Hr, Tr, Hrt, Trt.
Qed.

End ClosureFacts.

(** ** The further properties on the concrete configuration *)

Lemma managed_tier_route_witness :
  getJavaModule demo_javaPart "Bar" 2 = (Some 40, 3) ∧
  events None "Bar" demo_state =
    [Perf moduleJSRequireBeginningStart "Bar";
     Perf moduleJSRequireBeginningEnd "Bar";
     Call (Call_getTurboModule 10 "Bar" 2);
     Call (Call_getLegacyCxxModule 20 "Bar");
     Call (Call_getJavaModule 20 "Bar");
     Perf moduleJSRequireEndingStart "Bar";
     Call (Call_getTurboModule_params 10 "Bar"
             {| moduleName := "Bar"; instance := 40; jsInvoker := 2;
                nativeInvoker := 3; retainJSCallback := None |});
     Perf moduleJSRequireEndingEnd "Bar"] ∧
  world (snd (turboModuleProvider None "Bar" demo_state)) = 4 ∧
  heapNext (snd (turboModuleProvider None "Bar" demo_state)) = 0.
Proof.
  split; [reflexivity|].
  apply (managed_tier_route None "Bar" demo_state ∅ 2 3 demo_delegate
           demo_javaPart 1 2 40 3 (Some (DelegateModule 3)) 4 demo_locked);
    reflexivity.
Defined.

Lemma null_module_is_sticky_witness :
  let acts := [Outside S; Lookup "Foo"; Lookup "Empty"] in
  let s2 := run None acts demo_after_Empty in
  getTurboModule_params demo_delegate "Empty"
    {| moduleName := "Empty"; instance := 40; jsInvoker := 2;
       nativeInvoker := 3; retainJSCallback := None |} 3 = (None, 4) ∧
  fst (turboModuleProvider None "Empty" s2) = None ∧
  provider_calls (events None "Empty" s2) = [] ∧
  world (snd (turboModuleProvider None "Empty" s2)) = world s2 ∧
  (∀ c2, turboModuleCache_ s2 = Some c2 → c2 !! "Empty" = Some None).
Proof.
  intros acts s2. split; [reflexivity|].
  apply (null_module_is_sticky None "Empty" demo_state ∅ 2 3 demo_delegate
           demo_javaPart 1 2 40 3 4 acts demo_locked); reflexivity.
Defined.

Lemma lookup_leaves_other_names_witness :
  "Foo" ≠ "Empty" ∧
  entry (snd (turboModuleProvider None "Foo" demo_after_Empty)) "Empty"
    = entry demo_after_Empty "Empty".
Proof.
  assert ("Foo" ≠ "Empty") as Hne by discriminate.
  exact (conj Hne
           (lookup_leaves_other_names None "Foo" "Empty" demo_after_Empty Hne)).
Defined.

Lemma lookup_returns_cached_witness :
  entry (snd (turboModuleProvider None "Legacy" demo_state)) "Legacy"
    = Some (fst (turboModuleProvider None "Legacy" demo_state)) ∨
  (fst (turboModuleProvider None "Legacy" demo_state) = None ∧
   entry (snd (turboModuleProvider None "Legacy" demo_state)) "Legacy" = None ∧
   provider_calls (events None "Legacy" demo_state) =
     [Call (Call_getTurboModule 10 "Legacy" 2);
      Call (Call_getLegacyCxxModule 20 "Legacy");
      Call (Call_getJavaModule 20 "Legacy")]).
Proof.
  exact (lookup_returns_cached None "Legacy" demo_state ∅ 2 3 demo_delegate
           demo_javaPart demo_locked).
Defined.


Lemma teardown_is_final_witness :
  let acts := [Lookup "Foo"; Outside S; Lookup "Legacy"] in
  gone demo_torn_down ∧
  trace (run None acts demo_torn_down) = trace demo_torn_down ∧
  (∀ k res, (k, res) ∈ results None acts demo_torn_down → res = None).
Proof.
  intros acts.
  assert (gone demo_torn_down) as Hg by (do 3 right; left; reflexivity).
  destruct (teardown_is_final None acts demo_torn_down Hg)
    as (_ & Htrace & _ & Hres & _).
  exact (conj Hg (conj Htrace Hres)).
Defined.

Lemma cache_grows_by_lookups_witness :
  let acts := [Lookup "Foo"; Lookup "Nope"; Lookup "Legacy"; Lookup "Foo"] in
  let c' : TurboModuleCache :=
    <["Legacy" := Some (TurboCxxModule 0 31 2)]>
      (<["Foo" := Some (DelegateModule 0)]> ∅) in
  turboModuleCache_ (run None acts demo_state) = Some c' ∧
  (∅ : TurboModuleCache) ⊆ c' ∧
  (∀ k, is_Some (c' !! k) →
        is_Some ((∅ : TurboModuleCache) !! k) ∨ k ∈ looked_up acts) ∧
  size c' ≤ size (∅ : TurboModuleCache) + length (looked_up acts).
Proof.
  intros acts c'.
  assert (turboModuleCache_ (run None acts demo_state) = Some c') as Hc'
    by (vm_compute; reflexivity).
  exact (conj Hc'
           (cache_grows_by_lookups None acts demo_state ∅ c' eq_refl Hc')).
Defined.

Lemma binding_collection_is_factory_collection_witness :
  let b := {| binding_runtime := 1;
              binding_retainJSCallback := Some (retainScoped (Some 0));
              binding_longLivedObjectCollection := Some 0 |} in
  snd (installJSIBindings (demo_manager false true)) = Some b ∧
  binding_retainJSCallback b
    = Some (retainScoped (binding_longLivedObjectCollection b)).
Proof.
  intros b. split; [reflexivity|].
  destruct (binding_collection_is_factory_collection demo_javaPart 1
              (Some 2) (Some 3) demo_delegate false true demo_collections b
              eq_refl)
    as (_ & [(Hf & _) | [(_ & _ & Hsame & _) | (_ & Hf & _)]]).
  - discriminate Hf.
  - exact Hsame.
  - discriminate Hf.
Defined.

Lemma hybrid_manager_params_witness :
  let b := {| binding_runtime := 1;
              binding_retainJSCallback := Some (retainScoped (Some 0));
              binding_longLivedObjectCollection := Some 0 |} in
  let r := Some (retainScoped (Some 0)) in
  let p := {| moduleName := "Bar"; instance := 40; jsInvoker := 2;
              nativeInvoker := 3; retainJSCallback := r |} in
  Call (Call_getTurboModule_params 10 "Bar" p)
    ∈ events r "Bar" (run r [Lookup "Foo"] (captured demo_hybrid 0 0)) ∧
  jsInvoker p = 2 ∧ nativeInvoker p = 3 ∧
  retainJSCallback p = Some (retainScoped (Some 0)).
Proof.
  intros b r p.
  assert (Call (Call_getTurboModule_params 10 "Bar" p)
            ∈ events r "Bar" (run r [Lookup "Foo"] (captured demo_hybrid 0 0)))
    as Hin.
  { change (events r "Bar" (run r [Lookup "Foo"] (captured demo_hybrid 0 0)))
      with [Perf moduleJSRequireBeginningStart "Bar";
            Perf moduleJSRequireBeginningEnd "Bar";
            Call (Call_getTurboModule 10 "Bar" 2);
            Call (Call_getLegacyCxxModule 20 "Bar");
            Call (Call_getJavaModule 20 "Bar");
            Perf moduleJSRequireEndingStart "Bar";
            Call (Call_getTurboModule_params 10 "Bar" p);
            Perf moduleJSRequireEndingEnd "Bar"].
    do 6 apply list_elem_of_further. apply list_elem_of_here. }
  destruct (hybrid_manager_params demo_javaPart {| JRuntimeExecutor_get := 1 |}
              {| getCallInvoker := Some 2 |} {| getCallInvoker := Some 3 |}
              demo_delegate false true demo_collections 2 3 b 0 0
              [Lookup "Foo"] "Bar" 10 "Bar" p eq_refl eq_refl eq_refl Hin)
    as (_ & _ & _ & Hjs & Hnv & Hr & _).
  exact (conj Hin (conj Hjs (conj Hnv Hr))).
Defined.
